(** * Lizzy REST handlers ([lizzy/api.py]): a shallow embedding

    The handlers of [lizzy/api.py] translate REST requests into sequences
    of calls to external collaborators (the Senza and Kio command-line
    wrappers and the [Stack] data source) and map their failures to HTTP
    problem responses.

    The embedding keeps the shape of the Python code:
    - JSON-like Python values are an inductive type [pyvalue]; a [dict] is an
      association list, because [create_stack] iterates over [.items()];
    - Python exceptions are a type [exn]; a handler is a computation in a
      state-and-exception monad [M] whose state holds the external world,
      the list of collaborator calls made so far and the log records;
    - the collaborators are not part of [api.py]: they are the fields of a
      record [Env] of oracles over an abstract world [W]. *)

From Stdlib Require Import String Ascii List ZArith Bool Lia.
From Stdlib Require Import Permutation Sorted.
Import ListNotations.

Set Warnings "-register-all".

Local Open Scope string_scope.
Local Open Scope Z_scope.

(** ** Python values *)

Inductive pyvalue : Type :=
| PNone
| PBool (b : bool)
| PInt (z : Z)
| PStr (s : string)
| PList (l : list pyvalue)
| PDict (d : list (string * pyvalue)).

Definition pydict := list (string * pyvalue).

(** Truth value of an object, as tested by [if x:]. *)
Definition truthy (v : pyvalue) : bool :=
  match v with
  | PNone => false
  | PBool b => b
  | PInt z => negb (z =? 0)
  | PStr s => negb (s =? "")%string
  | PList l => match l with [] => false | _ :: _ => true end
  | PDict d => match d with [] => false | _ :: _ => true end
  end.

(** [v == s] for a string literal [s]. *)
Definition py_eq_str (v : pyvalue) (s : string) : bool :=
  match v with
  | PStr s' => (s' =? s)%string
  | _ => false
  end.

Fixpoint assoc (k : string) (d : pydict) : option pyvalue :=
  match d with
  | [] => None
  | (k', v) :: d' => if (k' =? k)%string then Some v else assoc k d'
  end.

(** [k in d] *)
Definition contains_key (k : string) (d : pydict) : bool :=
  match assoc k d with Some _ => true | None => false end.

(** [d.get(k, default)] *)
Definition dict_get (d : pydict) (k : string) (default : pyvalue) : pyvalue :=
  match assoc k d with Some v => v | None => default end.

(** ** Exceptions

    The classes of [lizzy.exceptions] are imported by [api.py]; each is a
    constructor carrying the attributes the handlers read ([uid],
    [message], [output]).  The built-in errors the handler bodies can raise
    themselves are included. *)

Inductive exn : Type :=
| ObjectNotFound (uid : string)
| ExecutionError (message output : string)
| SenzaRenderError (message : string)
| SenzaDomainsError (message : string)
| SenzaTrafficError (message : string)
| TrafficNotUpdated (message : string)
| KeyError (key : string)
| ValueError (msg : string)
| TypeError (msg : string)
| AttributeError (msg : string)
| YAMLError (msg : string).

Inductive outcome (A : Type) : Type :=
| Ret (a : A)
| Raise (e : exn).

Arguments Ret {A} a.
Arguments Raise {A} e.

(** [str(exception)] of a [KeyError] is the [repr] of the missing key. *)
Definition str_KeyError (key : string) : string := "'" ++ key ++ "'".

(** ** Identifier parsing: [stack_id.rsplit('-', 1)]

    [rsplit_once sep s] finds the last occurrence of [sep] in [s] and
    returns the text before and after it.  The separator is the ASCII
    character ['-'], so working on the bytes of the string is the same as
    working on its code points. *)

Fixpoint rsplit_once (sep : ascii) (s : string) : option (string * string) :=
  match s with
  | EmptyString => None
  | String c t =>
      match rsplit_once sep t with
      | Some (l, r) => Some (String c l, r)
      | None => if Ascii.eqb c sep then Some (EmptyString, t) else None
      end
  end.

(** [s.rsplit(sep, 1)]: a list of one or two strings. *)
Definition rsplit1 (sep : ascii) (s : string) : list string :=
  match rsplit_once sep s with
  | Some (l, r) => [l; r]
  | None => [s]
  end.

(** [a, b = l]: the two-target unpacking assignment. *)
Definition unpack2 (l : list string) : outcome (string * string) :=
  match l with
  | [a; b] => Ret (a, b)
  | [] => Raise (ValueError "not enough values to unpack (expected 2, got 0)")
  | [_] => Raise (ValueError "not enough values to unpack (expected 2, got 1)")
  | _ => Raise (ValueError "too many values to unpack (expected 2)")
  end.

(** [stack_name, stack_version = stack_id.rsplit('-', 1)] *)
Definition parse_stack_id (stack_id : string) : outcome (string * string) :=
  unpack2 (rsplit1 "-" stack_id).

(** [sep in s] *)
Fixpoint has_char (sep : ascii) (s : string) : bool :=
  match s with
  | EmptyString => false
  | String c t => Ascii.eqb c sep || has_char sep t
  end.

(** ** Responses *)

Inductive body : Type :=
| Body (v : pyvalue)
| Problem (status : Z) (title detail : string).

Record response : Type := mkResponse {
  resp_body : body;
  resp_status : Z;
  resp_headers : list (string * string)
}.

(** [connexion.problem(status, title, detail, headers=None)]: the problem
    document with the given status; only the headers passed by the caller
    are attached. *)
Definition connexion_problem (status : Z) (title detail : string)
    (headers : option (list (string * string))) : response :=
  {| resp_body := Problem status title detail;
     resp_status := status;
     resp_headers := match headers with Some h => h | None => [] end |}.

(** ** Collaborator calls *)

Inductive call : Type :=
| Stack_list
| Stack_get (stack_name stack_version : pyvalue)
| Senza_render_definition (senza_yaml stack_version application_version parameters : pyvalue)
| Senza_create (senza_yaml stack_version image_version parameters disable_rollback tags : pyvalue)
| Senza_patch (stack_name stack_version new_ami_image : pyvalue)
| Senza_respawn_instances (stack_name stack_version : pyvalue)
| Senza_domains (stack_name : pyvalue)
| Senza_traffic (stack_name stack_version percentage : pyvalue)
| Senza_remove (stack_name stack_version : pyvalue)
| Kio_versions_create (application_id version artifact : pyvalue).

(** The calls that change the deployed stack. *)
Definition is_mutating (c : call) : bool :=
  match c with
  | Senza_create _ _ _ _ _ _ | Senza_patch _ _ _ | Senza_respawn_instances _ _
  | Senza_traffic _ _ _ | Senza_remove _ _ | Kio_versions_create _ _ _ => true
  | _ => false
  end.

Definition is_traffic (c : call) : bool :=
  match c with Senza_traffic _ _ _ => true | _ => false end.

Definition is_domains (c : call) : bool :=
  match c with Senza_domains _ => true | _ => false end.

Definition is_stack_get (c : call) : bool :=
  match c with Stack_get _ _ => true | _ => false end.

Definition is_kio (c : call) : bool :=
  match c with Kio_versions_create _ _ _ => true | _ => false end.

Definition is_senza_create (c : call) : bool :=
  match c with Senza_create _ _ _ _ _ _ => true | _ => false end.

Inductive level : Type := INFO | ERROR | EXCEPTION.

Record log_record : Type := mkLog {
  log_level : level;
  log_msg : string;
  log_args : list pyvalue
}.

(** ** Pure fallible operations on values *)

Definition obind {A B : Type} (m : outcome A) (f : A -> outcome B) : outcome B :=
  match m with
  | Ret a => f a
  | Raise e => Raise e
  end.

Notation "x <~ m ;; k" := (obind m (fun x => k))
  (at level 100, m at next level, right associativity).

(** [v[k]] for a string key [k]. *)
Definition getitem (v : pyvalue) (k : string) : outcome pyvalue :=
  match v with
  | PDict d =>
      match assoc k d with
      | Some x => Ret x
      | None => Raise (KeyError k)
      end
  | PStr _ => Raise (TypeError "string indices must be integers")
  | PList _ => Raise (TypeError "list indices must be integers or slices, not str")
  | _ => Raise (TypeError "object is not subscriptable")
  end.

(** [v.items()] *)
Definition py_items (v : pyvalue) : outcome pydict :=
  match v with
  | PDict d => Ret d
  | _ => Raise (AttributeError "object has no attribute 'items'")
  end.

(** [a < b] on sort keys.  A creation time is a timestamp, a number;
    strings are ordered too; the comparison of the other types is a
    [TypeError]. *)
Definition py_lt (a b : pyvalue) : outcome bool :=
  match a, b with
  | PInt x, PInt y => Ret (x <? y)
  | PStr x, PStr y => Ret (String.ltb x y)
  | _, _ => Raise (TypeError "'<' not supported between instances")
  end.

(** *** [list.sort(key=...)]

    The keys are computed first, one per element and in order; the
    decorated list is then sorted with [<] on the keys only, and the sort is
    stable. *)

Fixpoint decorate (key : pyvalue -> outcome pyvalue) (l : list pyvalue)
    : outcome (list (pyvalue * pyvalue)) :=
  match l with
  | [] => Ret []
  | x :: l' =>
      k <~ key x ;;
      r <~ decorate key l' ;;
      Ret ((k, x) :: r)
  end.

Fixpoint insert_key (x : pyvalue * pyvalue) (l : list (pyvalue * pyvalue))
    : outcome (list (pyvalue * pyvalue)) :=
  match l with
  | [] => Ret [x]
  | y :: l' =>
      lt <~ py_lt (fst y) (fst x) ;;
      if (lt : bool) then r <~ insert_key x l' ;; Ret (y :: r)
      else Ret (x :: y :: l')
  end.

Fixpoint sort_keys (l : list (pyvalue * pyvalue))
    : outcome (list (pyvalue * pyvalue)) :=
  match l with
  | [] => Ret []
  | x :: l' => r <~ sort_keys l' ;; insert_key x r
  end.

Definition list_sort (key : pyvalue -> outcome pyvalue) (l : list pyvalue)
    : outcome (list pyvalue) :=
  d <~ decorate key l ;;
  s <~ sort_keys d ;;
  Ret (map snd s).

(** ** The handler monad *)

Section Handlers.

Context {W : Type}.

Record state : Type := mkState {
  world : W;
  calls : list call;
  logs : list log_record
}.

Definition M (A : Type) : Type := state -> outcome A * state.

Definition ret {A : Type} (a : A) : M A := fun s => (Ret a, s).

Definition raise {A : Type} (e : exn) : M A := fun s => (Raise e, s).

Definition bind {A B : Type} (m : M A) (f : A -> M B) : M B :=
  fun s =>
    match m s with
    | (Ret a, s') => f a s'
    | (Raise e, s') => (Raise e, s')
    end.

Definition lift {A : Type} (o : outcome A) : M A := fun s => (o, s).

(** [try: m  except <classes>: h]: [h e] is [None] when no clause matches
    [e], which then propagates. *)
Definition try_except {A : Type} (m : M A) (h : exn -> option (M A)) : M A :=
  fun s =>
    match m s with
    | (Ret a, s') => (Ret a, s')
    | (Raise e, s') =>
        match h e with
        | Some k => k s'
        | None => (Raise e, s')
        end
    end.

(** A call to a collaborator: recorded, then answered by the oracle. *)
Definition invoke {A : Type} (c : call) (f : W -> outcome A * W) : M A :=
  fun s =>
    let (r, w') := f (world s) in
    (r, {| world := w'; calls := calls s ++ [c]; logs := logs s |}).

Definition log (lvl : level) (msg : string) (args : list pyvalue) : M unit :=
  fun s =>
    (Ret tt, {| world := world s; calls := calls s;
                logs := logs s ++ [mkLog lvl msg args] |}).

(** A statement either returns from the handler or falls through. *)
Inductive flow (A : Type) : Type :=
| Returned (r : response)
| Fallthrough (a : A).

Arguments Returned {A} r.
Arguments Fallthrough {A} a.

(** ** The collaborators

    [VERSION] is [lizzy.version.VERSION]; [filter_empty_values] is
    [lizzy.util.filter_empty_values]; [yaml_safe_load] is [yaml.safe_load].
    The other fields are the methods of [Stack], [Senza] and [Kio] that the
    handlers call.  Constructing [Senza(config.region)] or [Kio()] calls
    nothing. *)
Record Env : Type := mkEnv {
  VERSION : string;
  filter_empty_values : pydict -> pydict;
  yaml_safe_load : pyvalue -> outcome pyvalue;
  stack_list : W -> outcome (list pyvalue) * W;
  stack_get : pyvalue -> pyvalue -> W -> outcome pyvalue * W;
  senza_render_definition :
    pyvalue -> pyvalue -> pyvalue -> pyvalue -> W -> outcome pyvalue * W;
  senza_create :
    pyvalue -> pyvalue -> pyvalue -> pyvalue -> pyvalue -> pyvalue ->
    W -> outcome pyvalue * W;
  senza_patch : pyvalue -> pyvalue -> pyvalue -> W -> outcome unit * W;
  senza_respawn_instances : pyvalue -> pyvalue -> W -> outcome unit * W;
  senza_domains : pyvalue -> W -> outcome pyvalue * W;
  senza_traffic : pyvalue -> pyvalue -> pyvalue -> W -> outcome unit * W;
  senza_remove : pyvalue -> pyvalue -> W -> outcome unit * W;
  kio_versions_create :
    pyvalue -> pyvalue -> pyvalue -> W -> outcome pyvalue * W
}.

End Handlers.

Arguments state W : clear implicits.
Arguments M W A : clear implicits.
Arguments Env W : clear implicits.
Arguments Returned {A} r.
Arguments Fallthrough {A} a.

Declare Scope handler_scope.
Delimit Scope handler_scope with handler.

Notation "x <- m ;; k" := (bind m (fun x => k))
  (at level 100, m at next level, right associativity) : handler_scope.
Notation "' p <- m ;; k" := (bind m (fun x => match x with p => k end))
  (at level 100, p pattern, m at next level, right associativity)
  : handler_scope.
Notation "m ;;; k" := (bind m (fun _ => k))
  (at level 100, right associativity) : handler_scope.

Local Open Scope handler_scope.

(** ** The handlers of [lizzy/api.py]

    The handlers are modelled below the authorization gate [bouncer]
    ([lizzy.security]), which runs before the handler body: each definition
    is the function that the gate calls for an admitted request. *)

Section Api.

Context {W : Type} (env : Env W).

Definition _make_headers : list (string * string) :=
  [("X-Lizzy-Version", VERSION env)].

(** The decorator [exception_to_connexion_problem]: only [ObjectNotFound]
    is turned into a response. *)
Definition exception_to_connexion_problem (func : M W response) : M W response :=
  try_except func
    (fun exception =>
       match exception with
       | ObjectNotFound uid =>
           Some (ret (connexion_problem 404 "Not Found"
                        ("Stack not found: " ++ uid) (Some _make_headers)))
       | _ => None
       end).

(** [GET /stacks/] *)
Definition all_stacks : M W response :=
  stacks <- invoke Stack_list (stack_list env) ;;
  stacks <- lift (list_sort (fun stack => getitem stack "creation_time") stacks) ;;
  ret (mkResponse (Body (PList stacks)) 200 _make_headers).

(** The loop of [create_stack] over [cf_raw_definition['Resources'].items()],
    started with the current value of [artifact_name]. *)
Fixpoint scan_resources (items : pydict) (artifact_name : pyvalue) : outcome pyvalue :=
  match items with
  | [] => Ret artifact_name
  | (resource, definition) :: items' =>
      ty <~ getitem definition "Type" ;;
      if py_eq_str ty "AWS::AutoScaling::LaunchConfiguration" then
        properties <~ getitem definition "Properties" ;;
        user_data <~ getitem properties "UserData" ;;
        taupage_yaml <~ getitem user_data "Fn::Base64" ;;
        taupage_config <~ yaml_safe_load env taupage_yaml ;;
        source <~ getitem taupage_config "source" ;;
        scan_resources items' source
      else scan_resources items' artifact_name
  end.

(** [cf_raw_definition['Mappings']['Senza']['Info']['StackName']] *)
Definition definition_stack_name (cf_raw_definition : pyvalue) : outcome pyvalue :=
  mappings <~ getitem cf_raw_definition "Mappings" ;;
  senza <~ getitem mappings "Senza" ;;
  info <~ getitem senza "Info" ;;
  getitem info "StackName".

(** [POST /stacks/] *)
Definition create_stack (new_stack : pydict) : M W response :=
  keep_stacks <- lift (getitem (PDict new_stack) "keep_stacks") ;;
  new_traffic <- lift (getitem (PDict new_stack) "new_traffic") ;;
  image_version <- lift (getitem (PDict new_stack) "image_version") ;;
  let application_version := dict_get new_stack "application_version" PNone in
  stack_version <- lift (getitem (PDict new_stack) "stack_version") ;;
  senza_yaml <- lift (getitem (PDict new_stack) "senza_yaml") ;;
  let parameters := dict_get new_stack "parameters" (PList []) in
  let disable_rollback := dict_get new_stack "disable_rollback" (PBool false) in
  rendered <-
    try_except
      (cf_raw_definition <-
         invoke (Senza_render_definition senza_yaml stack_version
                   application_version parameters)
           (senza_render_definition env senza_yaml stack_version
              application_version parameters) ;;
       ret (Fallthrough cf_raw_definition))
      (fun exception =>
         match exception with
         | SenzaRenderError message =>
             Some (ret (Returned (connexion_problem 400 "Invalid senza yaml"
                                    message (Some _make_headers))))
         | _ => None
         end) ;;
  match rendered with
  | Returned r => ret r
  | Fallthrough cf_raw_definition =>
  found <-
    try_except
      (stack_name <- lift (definition_stack_name cf_raw_definition) ;;
       resources <- lift (getitem cf_raw_definition "Resources") ;;
       items <- lift (py_items resources) ;;
       artifact_name <- lift (scan_resources items PNone) ;;
       match artifact_name with
       | PNone =>
           let missing_component_error :=
             "Missing component type Senza::TaupageAutoScalingGroup" in
           let problem :=
             connexion_problem 400 "Invalid senza yaml"
               missing_component_error (Some _make_headers) in
           log ERROR missing_component_error [] ;;;
           ret (Returned problem)
       | _ => ret (Fallthrough (stack_name, artifact_name))
       end)
      (fun exception =>
         match exception with
         | KeyError key =>
             Some (log ERROR "Couldn't get stack name from definition." [] ;;;
                   let missing_property := str_KeyError key in
                   ret (Returned
                          (connexion_problem 400 "Invalid senza yaml"
                             ("Missing property in senza yaml: " ++ missing_property)
                             (Some _make_headers))))
         | _ => None
         end) ;;
  match found with
  | Returned r => ret r
  | Fallthrough (stack_name, artifact_name) =>
  log INFO "Creating stack %s..." [stack_name] ;;;
  (if truthy application_version then
     log INFO "Registering version on kio..." [] ;;;
     registered <-
       invoke (Kio_versions_create stack_name application_version artifact_name)
         (kio_versions_create env stack_name application_version artifact_name) ;;
     if truthy registered then log INFO "Version registered in Kio." []
     else log ERROR "Error registering version in Kio." []
   else ret tt) ;;;
  let tags := PDict [("LizzyKeepStacks", keep_stacks);
                     ("LizzyTargetTraffic", new_traffic)] in
  created <-
    invoke (Senza_create senza_yaml stack_version image_version parameters
              disable_rollback tags)
      (senza_create env senza_yaml stack_version image_version parameters
         disable_rollback tags) ;;
  if truthy created then
    log INFO "Stack created." [] ;;;
    stack_dict <- invoke (Stack_get stack_name stack_version)
                    (stack_get env stack_name stack_version) ;;
    ret (mkResponse (Body stack_dict) 201 _make_headers)
  else
    log ERROR "Error creating stack." [] ;;;
    ret (connexion_problem 400 "Deployment Failed"
           "Senza create command failed." (Some _make_headers))
  end
  end.

(** [GET /stacks/{id}] *)
Definition get_stack (stack_id : string) : M W response :=
  exception_to_connexion_problem
    ('(stack_name, stack_version) <- lift (parse_stack_id stack_id) ;;
     stack_dict <- invoke (Stack_get (PStr stack_name) (PStr stack_version))
                     (stack_get env (PStr stack_name) (PStr stack_version)) ;;
     ret (mkResponse (Body stack_dict) 200 _make_headers)).

(** The image step of [patch_stack]. *)
Definition patch_image (stack_name stack_version : string) (stack_patch : pydict)
    : M W (flow unit) :=
  if contains_key "new_ami_image" stack_patch then
    new_ami_image <- lift (getitem (PDict stack_patch) "new_ami_image") ;;
    try_except
      (invoke (Senza_patch (PStr stack_name) (PStr stack_version) new_ami_image)
         (senza_patch env (PStr stack_name) (PStr stack_version) new_ami_image) ;;;
       invoke (Senza_respawn_instances (PStr stack_name) (PStr stack_version))
         (senza_respawn_instances env (PStr stack_name) (PStr stack_version)) ;;;
       ret (Fallthrough tt))
      (fun exception =>
         match exception with
         | ExecutionError message _ =>
             Some (log INFO message [] ;;;
                   ret (Returned (connexion_problem 400 "Image update failed"
                                    message (Some _make_headers))))
         | _ => None
         end)
  else ret (Fallthrough tt).

(** The traffic step of [patch_stack]. *)
Definition patch_traffic (stack_name stack_version : string) (stack_patch : pydict)
    : M W (flow unit) :=
  if contains_key "new_traffic" stack_patch then
    new_traffic <- lift (getitem (PDict stack_patch) "new_traffic") ;;
    try_except
      (domains <- invoke (Senza_domains (PStr stack_name))
                    (senza_domains env (PStr stack_name)) ;;
       if truthy domains then
         log INFO "Switching app traffic to stack." [] ;;;
         invoke (Senza_traffic (PStr stack_name) (PStr stack_version) new_traffic)
           (senza_traffic env (PStr stack_name) (PStr stack_version) new_traffic) ;;;
         ret (Fallthrough tt)
       else
         log INFO "App does not have a domain so traffic will not be switched." [] ;;;
         raise (TrafficNotUpdated "App does not have a domain."))
      (fun exception =>
         match exception with
         | SenzaDomainsError message =>
             Some (log EXCEPTION "Failed to get domains. Traffic will not be switched." [] ;;;
                   ret (Returned (connexion_problem 400 "Traffic update failed"
                                    message (Some _make_headers))))
         | SenzaTrafficError message =>
             Some (log EXCEPTION "Failed to switch app traffic." [] ;;;
                   ret (Returned (connexion_problem 400 "Traffic update failed"
                                    message (Some _make_headers))))
         | _ => None
         end)
  else ret (Fallthrough tt).

(** [PATCH /stacks/{id}] *)
Definition patch_stack (stack_id : string) (stack_patch : pydict) : M W response :=
  exception_to_connexion_problem
    (let stack_patch := filter_empty_values env stack_patch in
     '(stack_name, stack_version) <- lift (parse_stack_id stack_id) ;;
     stack_dict <- invoke (Stack_get (PStr stack_name) (PStr stack_version))
                     (stack_get env (PStr stack_name) (PStr stack_version)) ;;
     image <- patch_image stack_name stack_version stack_patch ;;
     match image with
     | Returned r => ret r
     | Fallthrough _ =>
         traffic <- patch_traffic stack_name stack_version stack_patch ;;
         match traffic with
         | Returned r => ret r
         | Fallthrough _ =>
             stack_dict <- invoke (Stack_get (PStr stack_name) (PStr stack_version))
                             (stack_get env (PStr stack_name) (PStr stack_version)) ;;
             ret (mkResponse (Body stack_dict) 202 _make_headers)
         end
     end).

(** [DELETE /stacks/{id}] *)
Definition delete_stack (stack_id : string) : M W response :=
  '(stack_name, stack_version) <- lift (parse_stack_id stack_id) ;;
  log INFO "Removing stack %s..." [PStr stack_id] ;;;
  removed <-
    try_except
      (invoke (Senza_remove (PStr stack_name) (PStr stack_version))
         (senza_remove env (PStr stack_name) (PStr stack_version)) ;;;
       log INFO "Stack %s removed." [PStr stack_id] ;;;
       ret (Fallthrough tt))
      (fun exception =>
         match exception with
         | ExecutionError _ output =>
             Some (log EXCEPTION "Failed to remove stack %s." [PStr stack_id] ;;;
                   ret (Returned (connexion_problem 500 "Stack deletion failed"
                                    output (Some _make_headers))))
         | _ => None
         end) ;;
  match removed with
  | Returned r => ret r
  | Fallthrough _ => ret (mkResponse (Body (PStr "")) 204 _make_headers)
  end.

(** The fallback for unknown paths. *)
Definition not_found_path_handler (error : pyvalue) : response :=
  connexion_problem 401 "Unauthorized" "" None.

End Api.

(** ** A concrete deployment, used to run the handlers

    The world is the number of collaborator calls answered so far; every
    collaborator succeeds, a fetched stack records when it was fetched, and
    the application has one domain. *)

Module Demo.

Definition tick {A : Type} (a : A) (w : nat) : outcome A * nat := (Ret a, S w).

Definition fail {A : Type} (e : exn) (w : nat) : outcome A * nat := (Raise e, S w).

Definition stack_record (name version : pyvalue) (created : Z) (w : nat) : pyvalue :=
  PDict [("stack_name", name); ("version", version);
         ("creation_time", PInt created); ("fetched_at", PInt (Z.of_nat w))].

Definition launch_configuration : pyvalue :=
  PDict [("Type", PStr "AWS::AutoScaling::LaunchConfiguration");
         ("Properties",
          PDict [("UserData", PDict [("Fn::Base64", PStr "source: registry/app:1.0")])])].

Definition rendered (resources : pydict) : pyvalue :=
  PDict [("Mappings", PDict [("Senza", PDict [("Info", PDict [("StackName", PStr "app")])])]);
         ("Resources", PDict resources)].

(** Modelled from the spec: [lizzy.util.filter_empty_values] is not part of
    [api.py]; the spec says that empty or unset fields are removed from the
    patch request, here the entries whose value is [None]. *)
Definition drop_none (d : pydict) : pydict :=
  filter (fun kv => match snd kv with PNone => false | _ => true end) d.

(** The deployment, with the answers of the template renderer, of Kio, of
    the image patch, of the domain query and of the removal left open. *)
Definition env_with (resources : pydict) (registered : pyvalue)
    (patched : outcome unit) (domains : pyvalue) (removed : outcome unit) : Env nat :=
  {| VERSION := "1.0";
     filter_empty_values := drop_none;
     yaml_safe_load := fun _ => Ret (PDict [("source", PStr "registry/app:1.0")]);
     stack_list := fun w =>
       tick [stack_record (PStr "app") (PStr "2") 30 w;
             stack_record (PStr "app") (PStr "1") 10 w;
             stack_record (PStr "web") (PStr "7") 20 w] w;
     stack_get := fun name version w => tick (stack_record name version 10 w) w;
     senza_render_definition := fun _ _ _ _ => tick (rendered resources);
     senza_create := fun _ _ _ _ _ _ => tick (PBool true);
     senza_patch := fun _ _ _ w => (patched, S w);
     senza_respawn_instances := fun _ _ => tick tt;
     senza_domains := fun _ => tick domains;
     senza_traffic := fun _ _ _ => tick tt;
     senza_remove := fun _ _ w => (removed, S w);
     kio_versions_create := fun _ _ _ => tick registered |}.

Definition resources : pydict := [("AppServerConfig", launch_configuration)].

Definition load_balancer : pyvalue :=
  PDict [("Type", PStr "AWS::ElasticLoadBalancing::LoadBalancer")].

Definition one_domain : pyvalue := PList [PStr "app.example.org"].

Definition env : Env nat :=
  env_with resources (PBool true) (Ret tt) one_domain (Ret tt).

(** Variants: one collaborator misbehaves. *)
Definition env_patch_fails : Env nat :=
  env_with resources (PBool true)
    (Raise (ExecutionError "patch failed" "senza: error")) one_domain (Ret tt).

Definition env_no_domain : Env nat :=
  env_with resources (PBool true) (Ret tt) (PList []) (Ret tt).

Definition env_no_launch_configuration : Env nat :=
  env_with [("AppLoadBalancer", load_balancer)] (PBool true) (Ret tt) one_domain (Ret tt).

Definition env_kio_fails : Env nat :=
  env_with resources (PBool false) (Ret tt) one_domain (Ret tt).

Definition env_remove_fails : Env nat :=
  env_with resources (PBool true) (Ret tt) one_domain
    (Raise (ExecutionError "remove failed" "Traceback:
  stack app-1 is protected")).

Definition start : state nat := {| world := O; calls := []; logs := [] |}.

Definition new_stack : pydict :=
  [("keep_stacks", PInt 2); ("new_traffic", PInt 100);
   ("image_version", PStr "1.0"); ("application_version", PStr "42");
   ("stack_version", PStr "7"); ("senza_yaml", PStr "SenzaInfo: {StackName: app}")].

End Demo.

(** ** Vocabulary of the statements *)

(** The value of a response header. *)
Fixpoint header (name : string) (headers : list (string * string)) : option string :=
  match headers with
  | [] => None
  | (n, v) :: headers' => if (n =? name)%string then Some v else header name headers'
  end.

(** The response carries the version header of this deployment. *)
Definition has_version_header {W : Type} (env : Env W) (r : response) : Prop :=
  header "X-Lizzy-Version" (resp_headers r) = Some (VERSION env).

(** The request body carries the fields [create_stack] reads with
    [new_stack[...]]. *)
Definition required_fields (new_stack : pydict) : bool :=
  forallb (fun k => contains_key k new_stack)
    ["keep_stacks"; "new_traffic"; "image_version"; "stack_version"; "senza_yaml"].

(** Every resource has a type, and none is a launch configuration. *)
Definition no_launch_configuration (items : pydict) : bool :=
  forallb
    (fun kv =>
       match getitem (snd kv) "Type" with
       | Ret ty => negb (py_eq_str ty "AWS::AutoScaling::LaunchConfiguration")
       | Raise _ => false
       end)
    items.

(** The creation time of a stack record, when it is an integer timestamp. *)
Definition creation_time (stack : pyvalue) : option Z :=
  match getitem stack "creation_time" with
  | Ret (PInt t) => Some t
  | _ => None
  end.

Definition has_creation_time (stack : pyvalue) : Prop :=
  exists t, creation_time stack = Some t.

(** [a] was created no later than [b]. *)
Definition created_before (a b : pyvalue) : Prop :=
  exists ta tb, creation_time a = Some ta /\ creation_time b = Some tb /\ ta <= tb.

(** The image update of [patch_stack], started in world [w], fails with the
    tool error [message]: either the patch fails, or the patch succeeds and
    the respawn fails. *)
Definition image_update_fails {W : Type} (env : Env W)
    (stack_name stack_version new_ami_image : pyvalue) (w : W) (message : string) : Prop :=
  (exists output w',
      senza_patch env stack_name stack_version new_ami_image w
      = (Raise (ExecutionError message output), w')) \/
  (exists w1 output w',
      senza_patch env stack_name stack_version new_ami_image w = (Ret tt, w1) /\
      senza_respawn_instances env stack_name stack_version w1
      = (Raise (ExecutionError message output), w')).

(** An entry of the decorated list of [list_sort]: the key is the integer
    creation time of the stack. *)
Definition timed (entry : pyvalue * pyvalue) : Prop :=
  exists t, fst entry = PInt t /\ creation_time (snd entry) = Some t.

Definition entry_before (a b : pyvalue * pyvalue) : Prop :=
  created_before (snd a) (snd b).

(** Every value a computation returns satisfies [Q]. *)
Definition post {W A : Type} (m : M W A) (Q : A -> Prop) : Prop :=
  forall st a st', m st = (Ret a, st') -> Q a.

(** A response returned early carries the version header. *)
Definition stamped_flow {W A : Type} (env : Env W) (x : flow A) : Prop :=
  match x with
  | Returned r => has_version_header env r
  | Fallthrough _ => True
  end.

(** ** More of [api.py]: the footprint of a handler, the artifact lookup
    and [_make_stack_api_compliant] *)

(** Whatever the collaborators answer, the calls a computation adds to the
    trace are all [allowed]. *)
Definition only {W A : Type} (allowed : call -> bool) (m : M W A) : Prop :=
  forall st,
  exists cs,
    calls (snd (m st)) = (calls st ++ cs)%list /\ forallb allowed cs = true.

Definition is_stack_list (c : call) : bool :=
  match c with Stack_list => true | _ => false end.

Definition is_remove (c : call) : bool :=
  match c with Senza_remove _ _ => true | _ => false end.

Definition is_respawn (c : call) : bool :=
  match c with Senza_respawn_instances _ _ => true | _ => false end.

(** The collaborators [patch_stack] talks to. *)
Definition patch_footprint (c : call) : bool :=
  match c with
  | Stack_get _ _ | Senza_patch _ _ _ | Senza_respawn_instances _ _
  | Senza_domains _ | Senza_traffic _ _ _ => true
  | _ => false
  end.

(** The collaborators [create_stack] talks to. *)
Definition create_footprint (c : call) : bool :=
  match c with
  | Senza_render_definition _ _ _ _ | Kio_versions_create _ _ _
  | Senza_create _ _ _ _ _ _ | Stack_get _ _ => true
  | _ => false
  end.

(** What the second [try] block of [create_stack] reads from the rendered
    definition before it tests [artifact_name]: the stack name and the
    artifact name left by the loop. *)
Definition find_artifact {W : Type} (env : Env W) (cf_raw_definition : pyvalue)
    : outcome (pyvalue * pyvalue) :=
  stack_name <~ definition_stack_name cf_raw_definition ;;
  resources <~ getitem cf_raw_definition "Resources" ;;
  items <~ py_items resources ;;
  artifact_name <~ scan_resources env items PNone ;;
  Ret (stack_name, artifact_name).

(** [d[k] = v]: an existing key keeps its place. *)
Fixpoint setitem (k : string) (v : pyvalue) (d : pydict) : pydict :=
  match d with
  | [] => [(k, v)]
  | (k', v') :: d' =>
      if (k' =? k)%string then (k', v) :: d' else (k', v') :: setitem k v d'
  end.


Definition is_object_not_found (e : exn) : bool :=
  match e with ObjectNotFound _ => true | _ => false end.

(** The stack record is a [dict] without a [creation_time]. *)
Definition untimed_dict (stack : pyvalue) : Prop :=
  exists d, stack = PDict d /\ assoc "creation_time" d = None.

Definition is_dict (stack : pyvalue) : Prop := exists d, stack = PDict d.

Section Compliance.

(** [lizzy.util.timestamp_to_uct] and the formatting of a [datetime] by
    [str.format] are not part of [api.py]. *)
Context {datetime : Type}.
Variable timestamp_to_uct : pyvalue -> outcome datetime.
Variable strftime : string -> datetime -> string.

(** [_make_stack_api_compliant]: works on a copy, so the argument is left
    as it was. *)
Definition _make_stack_api_compliant (stack : pydict) : outcome pydict :=
  let stack := stack in
  timestamp <~ getitem (PDict stack) "creation_time" ;;
  creation_date <~ timestamp_to_uct timestamp ;;
  Ret (setitem "creation_time" (PStr (strftime "%FT%T%z" creation_date)) stack).

End Compliance.

(** ** More deployments, in which one collaborator misbehaves *)

Module Scenario.

Definition with_stack_get (f : pyvalue -> pyvalue -> nat -> outcome pyvalue * nat)
    (e : Env nat) : Env nat :=
  mkEnv (VERSION e) (filter_empty_values e) (yaml_safe_load e) (stack_list e) f
    (senza_render_definition e) (senza_create e) (senza_patch e)
    (senza_respawn_instances e) (senza_domains e) (senza_traffic e)
    (senza_remove e) (kio_versions_create e).

Definition with_stack_list (f : nat -> outcome (list pyvalue) * nat)
    (e : Env nat) : Env nat :=
  mkEnv (VERSION e) (filter_empty_values e) (yaml_safe_load e) f (stack_get e)
    (senza_render_definition e) (senza_create e) (senza_patch e)
    (senza_respawn_instances e) (senza_domains e) (senza_traffic e)
    (senza_remove e) (kio_versions_create e).

Definition with_render (f : nat -> outcome pyvalue * nat) (e : Env nat) : Env nat :=
  mkEnv (VERSION e) (filter_empty_values e) (yaml_safe_load e) (stack_list e)
    (stack_get e) (fun _ _ _ _ => f) (senza_create e) (senza_patch e)
    (senza_respawn_instances e) (senza_domains e) (senza_traffic e)
    (senza_remove e) (kio_versions_create e).

Definition with_create (f : nat -> outcome pyvalue * nat) (e : Env nat) : Env nat :=
  mkEnv (VERSION e) (filter_empty_values e) (yaml_safe_load e) (stack_list e)
    (stack_get e) (senza_render_definition e) (fun _ _ _ _ _ _ => f) (senza_patch e)
    (senza_respawn_instances e) (senza_domains e) (senza_traffic e)
    (senza_remove e) (kio_versions_create e).

Definition with_domains (f : nat -> outcome pyvalue * nat) (e : Env nat) : Env nat :=
  mkEnv (VERSION e) (filter_empty_values e) (yaml_safe_load e) (stack_list e)
    (stack_get e) (senza_render_definition e) (senza_create e) (senza_patch e)
    (senza_respawn_instances e) (fun _ => f) (senza_traffic e)
    (senza_remove e) (kio_versions_create e).

Definition with_traffic (f : nat -> outcome unit * nat) (e : Env nat) : Env nat :=
  mkEnv (VERSION e) (filter_empty_values e) (yaml_safe_load e) (stack_list e)
    (stack_get e) (senza_render_definition e) (senza_create e) (senza_patch e)
    (senza_respawn_instances e) (senza_domains e) (fun _ _ _ => f)
    (senza_remove e) (kio_versions_create e).


(** The stack is unknown. *)
Definition unknown_stack : Env nat :=
  with_stack_get (fun name version => Demo.fail (ObjectNotFound "app-1")) Demo.env.

(** The stack is there for the first fetch and gone afterwards. *)
Definition vanishing_stack : Env nat :=
  with_stack_get
    (fun name version w =>
       match w with
       | O => Demo.tick (Demo.stack_record name version 10 w) w
       | S _ => Demo.fail (ObjectNotFound "app-1") w
       end)
    Demo.env.

Definition domains_error : Env nat :=
  with_domains (Demo.fail (SenzaDomainsError "no hosted zone")) Demo.env.

Definition traffic_error : Env nat :=
  with_traffic (Demo.fail (SenzaTrafficError "weights rejected")) Demo.env.

Definition render_error : Env nat :=
  with_render (Demo.fail (SenzaRenderError "yaml: line 3: bad indent")) Demo.env.

(** The rendered definition has no [Mappings]. *)
Definition no_mappings : Env nat :=
  with_render (Demo.tick (PDict [("Resources", PDict Demo.resources)])) Demo.env.

Definition create_refused : Env nat :=
  with_create (Demo.tick (PBool false)) Demo.env.


(** A listing that is already in creation order, and one with a stack that
    has no creation time. *)
Definition listing_in_order : list pyvalue :=
  [Demo.stack_record (PStr "app") (PStr "1") 10 0;
   Demo.stack_record (PStr "web") (PStr "7") 10 0;
   Demo.stack_record (PStr "app") (PStr "2") 30 0].

Definition listing_untimed : list pyvalue :=
  [Demo.stack_record (PStr "app") (PStr "1") 10 0;
   PDict [("stack_name", PStr "web"); ("version", PStr "7")]].

Definition in_order : Env nat :=
  with_stack_list (Demo.tick listing_in_order) Demo.env.

Definition untimed : Env nat :=
  with_stack_list (Demo.tick listing_untimed) Demo.env.

(** A request without an application version. *)
Definition new_stack_unversioned : pydict :=
  [("keep_stacks", PInt 2); ("new_traffic", PInt 100);
   ("image_version", PStr "1.0");
   ("stack_version", PStr "7"); ("senza_yaml", PStr "SenzaInfo: {StackName: app}")].

(** A request without the image version. *)
Definition new_stack_incomplete : pydict :=
  [("keep_stacks", PInt 2); ("new_traffic", PInt 100);
   ("stack_version", PStr "7"); ("senza_yaml", PStr "SenzaInfo: {StackName: app}")].

(** Seconds since the epoch, formatted as plain digits: a stand-in for the
    conversion and formatting of a creation time. *)
Definition seconds (v : pyvalue) : outcome Z :=
  match v with
  | PInt z => Ret z
  | _ => Raise (TypeError "an integer is required")
  end.

Definition show (format : string) (t : Z) : string :=
  if (t =? 0)%Z then "1970-01-01T00:00:00+0000" else "later".

End Scenario.

(** ** Running a handler

    [run] exposes the state passing of the monad, so that the answers of the
    collaborators can be rewritten in. *)

Ltac run :=
  unfold exception_to_connexion_problem, bind, lift, ret, raise, try_except,
    invoke, log; cbn [world calls logs fst snd].

(** ** Identifier parsing *)

Lemma rsplit_once_absent (sep : ascii) (s : string) :
  has_char sep s = false -> rsplit_once sep s = None.
Proof.
  induction s as [|c t IH]; simpl; [reflexivity|].
  intros H. apply orb_false_iff in H. destruct H as [Hc Ht].
  rewrite (IH Ht), Hc. reflexivity.
Qed.

Lemma rsplit_once_last (sep : ascii) (name version : string) :
  has_char sep version = false ->
  rsplit_once sep (name ++ String sep version) = Some (name, version).
Proof.
  intros Hv. induction name as [|c n IH]; simpl.
  - rewrite (rsplit_once_absent _ _ Hv), Ascii.eqb_refl. reflexivity.
  - rewrite IH. reflexivity.
Qed.

Lemma parse_stack_id_absent (stack_id : string) :
  has_char "-" stack_id = false ->
  parse_stack_id stack_id =
  Raise (ValueError "not enough values to unpack (expected 2, got 1)").
Proof.
  intros H. unfold parse_stack_id, rsplit1.
  rewrite (rsplit_once_absent _ _ H). reflexivity.
Qed.

(** C5, as stated, fails: a version that itself contains the separator is
    not recovered, the split takes its last segment only. *)
Lemma parse_stack_id_version_with_separator :
  parse_stack_id ("a" ++ "-" ++ "b-c") = Ret ("a-b", "c") /\
  parse_stack_id ("a" ++ "-" ++ "b-c") <> Ret ("a", "b-c").
Proof. split; [reflexivity | discriminate]. Qed.

(** C5 (amended): for every name, with or without the separator, and every
    version that does not contain the separator, parsing the identifier
    [name-version] as [get_stack], [patch_stack] and [delete_stack] do
    recovers exactly [(name, version)]. *)
Theorem parse_stack_id_recovers (name version : string) :
  has_char "-" version = false ->
  rsplit1 "-" (name ++ "-" ++ version) = [name; version] /\
  parse_stack_id (name ++ "-" ++ version) = Ret (name, version).
Proof.
  intros Hv. unfold parse_stack_id, rsplit1.
  change (name ++ "-" ++ version) with (name ++ String "-" version).
  rewrite (rsplit_once_last _ _ _ Hv). split; reflexivity.
Qed.

Lemma parse_stack_id_recovers_witness :
  has_char "-" "42" = false /\
  rsplit1 "-" ("my-app-name" ++ "-" ++ "42") = ["my-app-name"; "42"] /\
  parse_stack_id ("my-app-name" ++ "-" ++ "42") = Ret ("my-app-name", "42").
Proof.
  split; [reflexivity | apply (parse_stack_id_recovers "my-app-name" "42"); reflexivity].
Defined.

(** ** Identifiers without a separator *)

Section Unparsable.

Context {W : Type} (env : Env W).

(** C10: when the identifier contains no ['-'], each of [get_stack],
    [patch_stack] and [delete_stack] raises the [ValueError] of the
    two-target unpacking; the state is untouched, so no collaborator was
    called, and the error is not turned into a response. *)
Theorem unparsable_id_raises (stack_id : string) (stack_patch : pydict) (st : state W) :
  has_char "-" stack_id = false ->
  let error := ValueError "not enough values to unpack (expected 2, got 1)" in
  get_stack env stack_id st = (Raise error, st) /\
  patch_stack env stack_id stack_patch st = (Raise error, st) /\
  delete_stack env stack_id st = (Raise error, st).
Proof.
  intros H error.
  unfold get_stack, patch_stack, delete_stack, exception_to_connexion_problem,
    try_except, bind, lift.
  rewrite (parse_stack_id_absent _ H). repeat split; reflexivity.
Qed.

End Unparsable.

Lemma unparsable_id_raises_witness :
  has_char "-" "app" = false /\
  get_stack Demo.env "app" Demo.start
  = (Raise (ValueError "not enough values to unpack (expected 2, got 1)"), Demo.start) /\
  patch_stack Demo.env "app" [("new_traffic", PInt 50)] Demo.start
  = (Raise (ValueError "not enough values to unpack (expected 2, got 1)"), Demo.start) /\
  delete_stack Demo.env "app" Demo.start
  = (Raise (ValueError "not enough values to unpack (expected 2, got 1)"), Demo.start).
Proof.
  split; [reflexivity|].
  apply (unparsable_id_raises Demo.env "app" [("new_traffic", PInt 50)] Demo.start).
  reflexivity.
Defined.

(** ** [delete_stack] *)

Section Delete.

Context {W : Type} (env : Env W).

(** C7: when the removal fails with an [ExecutionError], [delete_stack]
    answers 500 "Stack deletion failed" whose detail is the error's [output],
    unchanged, and not its message; when the removal succeeds it answers
    204 with the empty body. *)
Theorem delete_stack_outcome (stack_id name version : string) (st : state W) :
  parse_stack_id stack_id = Ret (name, version) ->
  (forall message output w',
      senza_remove env (PStr name) (PStr version) (world st)
      = (Raise (ExecutionError message output), w') ->
      fst (delete_stack env stack_id st)
      = Ret {| resp_body := Problem 500 "Stack deletion failed" output;
               resp_status := 500;
               resp_headers := _make_headers env |}) /\
  (forall w',
      senza_remove env (PStr name) (PStr version) (world st) = (Ret tt, w') ->
      fst (delete_stack env stack_id st)
      = Ret {| resp_body := Body (PStr "");
               resp_status := 204;
               resp_headers := _make_headers env |}).
Proof.
  intros Hid. split.
  - intros message output w' Hrm.
    unfold delete_stack. run. rewrite Hid. cbn. rewrite Hrm. reflexivity.
  - intros w' Hrm.
    unfold delete_stack. run. rewrite Hid. cbn. rewrite Hrm. reflexivity.
Qed.

End Delete.

Lemma delete_stack_outcome_witness :
  parse_stack_id "app-1" = Ret ("app", "1") /\
  fst (delete_stack Demo.env_remove_fails "app-1" Demo.start)
  = Ret {| resp_body := Problem 500 "Stack deletion failed" "Traceback:
  stack app-1 is protected";
           resp_status := 500;
           resp_headers := [("X-Lizzy-Version", "1.0")] |} /\
  fst (delete_stack Demo.env "app-1" Demo.start)
  = Ret {| resp_body := Body (PStr "");
           resp_status := 204;
           resp_headers := [("X-Lizzy-Version", "1.0")] |}.
Proof.
  split; [reflexivity|]. split.
  - apply (proj1 (delete_stack_outcome Demo.env_remove_fails "app-1" "app" "1"
                    Demo.start eq_refl)
             "remove failed" "Traceback:
  stack app-1 is protected" 1%nat).
    reflexivity.
  - apply (proj2 (delete_stack_outcome Demo.env "app-1" "app" "1"
                    Demo.start eq_refl) 1%nat).
    reflexivity.
Defined.

(** ** [patch_stack] *)

Section Patch.

Context {W : Type} (env : Env W).

Lemma getitem_assoc (d : pydict) (k : string) (v : pyvalue) :
  assoc k d = Some v -> getitem (PDict d) k = Ret v.
Proof. intros H. simpl. rewrite H. reflexivity. Qed.

Lemma contains_key_assoc (d : pydict) (k : string) (v : pyvalue) :
  assoc k d = Some v -> contains_key k d = true.
Proof. intros H. unfold contains_key. rewrite H. reflexivity. Qed.

(** C1: a patch request carrying a new image and a new traffic percentage,
    whose image update (patch or respawn) fails with the tool error
    [message], is answered 400 "Image update failed" with that message; after
    the first fetch of the stack no domain query, no traffic reassignment
    and no second fetch is made. *)
Theorem patch_stack_image_failure
    (stack_id name version message : string) (stack_patch : pydict)
    (new_ami_image stack_dict : pyvalue) (w1 : W) (st : state W) :
  parse_stack_id stack_id = Ret (name, version) ->
  assoc "new_ami_image" (filter_empty_values env stack_patch) = Some new_ami_image ->
  contains_key "new_traffic" (filter_empty_values env stack_patch) = true ->
  stack_get env (PStr name) (PStr version) (world st) = (Ret stack_dict, w1) ->
  image_update_fails env (PStr name) (PStr version) new_ami_image w1 message ->
  exists st' cs,
    patch_stack env stack_id stack_patch st
    = (Ret {| resp_body := Problem 400 "Image update failed" message;
              resp_status := 400;
              resp_headers := _make_headers env |}, st') /\
    calls st' = (calls st ++ Stack_get (PStr name) (PStr version) :: cs)%list /\
    forallb (fun c => negb (is_domains c || is_traffic c || is_stack_get c)) cs = true.
Proof.
  intros Hid Himg _ Hget Hfail.
  unfold patch_stack, patch_image.
  rewrite (contains_key_assoc _ _ _ Himg), (getitem_assoc _ _ _ Himg).
  run. rewrite Hid. cbn. rewrite Hget. cbn.
  destruct Hfail as [(output & w' & Hp) | (w2 & output & w' & Hp & Hr)].
  - rewrite Hp. cbn. eexists. eexists. split; [reflexivity|]. cbn.
    rewrite <- app_assoc. split; reflexivity.
  - rewrite Hp. cbn. rewrite Hr. cbn. eexists. eexists. split; [reflexivity|]. cbn.
    rewrite <- !app_assoc. split; reflexivity.
Qed.

(** C2, what the code does: when the domain query answers with no domain,
    [patch_stack] raises [TrafficNotUpdated] with its explanatory message
    right after the query, so the traffic reassignment is not invoked; but
    the exception leaves the handler as an exception, neither the [except]
    clauses of the traffic step nor [exception_to_connexion_problem] turn it
    into a 400 response. *)
Theorem patch_stack_no_domain_raises
    (stack_id name version : string) (stack_patch : pydict)
    (new_traffic stack_dict domains : pyvalue) (w1 w3 : W) (st st2 : state W) :
  parse_stack_id stack_id = Ret (name, version) ->
  assoc "new_traffic" (filter_empty_values env stack_patch) = Some new_traffic ->
  stack_get env (PStr name) (PStr version) (world st) = (Ret stack_dict, w1) ->
  patch_image env name version (filter_empty_values env stack_patch)
    {| world := w1;
       calls := (calls st ++ [Stack_get (PStr name) (PStr version)])%list;
       logs := logs st |}
  = (Ret (Fallthrough tt), st2) ->
  senza_domains env (PStr name) (world st2) = (Ret domains, w3) ->
  truthy domains = false ->
  exists st',
    patch_stack env stack_id stack_patch st
    = (Raise (TrafficNotUpdated "App does not have a domain."), st') /\
    calls st' = (calls st2 ++ [Senza_domains (PStr name)])%list.
Proof.
  intros Hid Htr Hget Himg Hdom Hnone.
  unfold patch_stack, patch_traffic.
  rewrite (contains_key_assoc _ _ _ Htr), (getitem_assoc _ _ _ Htr).
  run. rewrite Hid. cbn. rewrite Hget. cbn. rewrite Himg. cbn.
  rewrite Hdom. cbn. rewrite Hnone. cbn.
  eexists. split; reflexivity.
Qed.

(** C6: when the filtered patch request has neither [new_ami_image] nor
    [new_traffic], [patch_stack] makes no mutating call at all; and when the
    stack is found, it answers 202 with the stack as fetched a second time,
    having called nothing but the two fetches. *)
Theorem patch_stack_empty_request
    (stack_id : string) (stack_patch : pydict) (st : state W) :
  contains_key "new_ami_image" (filter_empty_values env stack_patch) = false ->
  contains_key "new_traffic" (filter_empty_values env stack_patch) = false ->
  (exists cs,
      calls (snd (patch_stack env stack_id stack_patch st)) = (calls st ++ cs)%list /\
      forallb (fun c => negb (is_mutating c)) cs = true) /\
  (forall name version first w1 refreshed w2,
      parse_stack_id stack_id = Ret (name, version) ->
      stack_get env (PStr name) (PStr version) (world st) = (Ret first, w1) ->
      stack_get env (PStr name) (PStr version) w1 = (Ret refreshed, w2) ->
      patch_stack env stack_id stack_patch st
      = (Ret {| resp_body := Body refreshed;
                resp_status := 202;
                resp_headers := _make_headers env |},
         {| world := w2;
            calls := (calls st ++ [Stack_get (PStr name) (PStr version);
                                   Stack_get (PStr name) (PStr version)])%list;
            logs := logs st |})).
Proof.
  intros Himg Htr.
  unfold patch_stack, patch_image, patch_traffic. rewrite Himg, Htr. run.
  split.
  - destruct (parse_stack_id stack_id) as [[name version]|e]; cbn.
    + destruct (stack_get env (PStr name) (PStr version) (world st))
        as [[first|e] w1]; cbn.
      * destruct (stack_get env (PStr name) (PStr version) w1)
          as [[refreshed|e] w2]; cbn.
        -- rewrite <- app_assoc. eexists. split; reflexivity.
        -- destruct e; cbn; rewrite <- app_assoc; eexists; split; reflexivity.
      * destruct e; cbn; eexists; split; reflexivity.
    + exists []. rewrite app_nil_r. destruct e; split; reflexivity.
  - intros name version first w1 refreshed w2 Hid H1 H2.
    rewrite Hid. cbn. rewrite H1. cbn. rewrite H2. cbn.
    rewrite <- app_assoc. reflexivity.
Qed.

End Patch.

Lemma patch_stack_image_failure_witness :
  exists st' cs,
    patch_stack Demo.env_patch_fails "app-1"
      [("new_ami_image", PStr "ami-42"); ("new_traffic", PInt 50)] Demo.start
    = (Ret {| resp_body := Problem 400 "Image update failed" "patch failed";
              resp_status := 400;
              resp_headers := [("X-Lizzy-Version", "1.0")] |}, st') /\
    calls st' = ([] ++ Stack_get (PStr "app") (PStr "1") :: cs)%list /\
    forallb (fun c => negb (is_domains c || is_traffic c || is_stack_get c)) cs = true.
Proof.
  apply (patch_stack_image_failure Demo.env_patch_fails "app-1" "app" "1"
           "patch failed" _ (PStr "ami-42")
           (Demo.stack_record (PStr "app") (PStr "1") 10 0) 1%nat Demo.start).
  - reflexivity.
  - reflexivity.
  - reflexivity.
  - reflexivity.
  - left. exists "senza: error", 2%nat. reflexivity.
Defined.

Lemma patch_stack_no_domain_raises_witness :
  exists st',
    patch_stack Demo.env_no_domain "app-1" [("new_traffic", PInt 50)] Demo.start
    = (Raise (TrafficNotUpdated "App does not have a domain."), st') /\
    calls st' = ([Stack_get (PStr "app") (PStr "1")] ++ [Senza_domains (PStr "app")])%list.
Proof.
  apply (patch_stack_no_domain_raises Demo.env_no_domain "app-1" "app" "1"
           [("new_traffic", PInt 50)] (PInt 50)
           (Demo.stack_record (PStr "app") (PStr "1") 10 0) (PList [])
           1%nat 2%nat Demo.start
           {| world := 1%nat; calls := [Stack_get (PStr "app") (PStr "1")]; logs := [] |});
    reflexivity.
Defined.

Lemma patch_stack_empty_request_witness :
  patch_stack Demo.env "app-1" [("new_ami_image", PNone); ("new_traffic", PNone)]
    Demo.start
  = (Ret {| resp_body := Body (Demo.stack_record (PStr "app") (PStr "1") 10 1);
            resp_status := 202;
            resp_headers := [("X-Lizzy-Version", "1.0")] |},
     {| world := 2%nat;
        calls := [Stack_get (PStr "app") (PStr "1"); Stack_get (PStr "app") (PStr "1")];
        logs := [] |}).
Proof.
  apply (proj2 (patch_stack_empty_request Demo.env "app-1"
                  [("new_ami_image", PNone); ("new_traffic", PNone)] Demo.start
                  eq_refl eq_refl)
           "app" "1" (Demo.stack_record (PStr "app") (PStr "1") 10 0) 1%nat
           (Demo.stack_record (PStr "app") (PStr "1") 10 1) 2%nat);
    reflexivity.
Defined.

(** ** [create_stack] *)

Section Create.

Context {W : Type} (env : Env W).

Lemma getitem_dict_get (d : pydict) (k : string) (default : pyvalue) :
  contains_key k d = true -> getitem (PDict d) k = Ret (dict_get d k default).
Proof.
  unfold contains_key, dict_get. simpl.
  destruct (assoc k d); [reflexivity | discriminate].
Qed.

Lemma required_fields_getitem (new_stack : pydict) (k : string) :
  required_fields new_stack = true ->
  In k ["keep_stacks"; "new_traffic"; "image_version"; "stack_version"; "senza_yaml"] ->
  getitem (PDict new_stack) k = Ret (dict_get new_stack k PNone).
Proof.
  intros Hreq Hin. apply getitem_dict_get.
  unfold required_fields in Hreq. rewrite forallb_forall in Hreq.
  apply Hreq, Hin.
Qed.

(** The scan leaves [artifact_name] as it was when no resource is a launch
    configuration. *)
Lemma scan_resources_no_launch_configuration (items : pydict) (artifact_name : pyvalue) :
  no_launch_configuration items = true ->
  scan_resources env items artifact_name = Ret artifact_name.
Proof.
  induction items as [|[resource definition] items IH]; simpl; [reflexivity|].
  intros H. apply andb_true_iff in H. destruct H as [Hty Hrest].
  destruct (getitem definition "Type") as [ty|e]; [|discriminate]. simpl.
  apply negb_true_iff in Hty. rewrite Hty. apply IH, Hrest.
Qed.

(** The first half of [create_stack]: the request fields are read and the
    template is rendered. *)
Ltac read_request Hreq :=
  unfold create_stack;
  rewrite (required_fields_getitem _ "keep_stacks" Hreq) by (simpl; tauto);
  rewrite (required_fields_getitem _ "new_traffic" Hreq) by (simpl; tauto);
  rewrite (required_fields_getitem _ "image_version" Hreq) by (simpl; tauto);
  rewrite (required_fields_getitem _ "stack_version" Hreq) by (simpl; tauto);
  rewrite (required_fields_getitem _ "senza_yaml" Hreq) by (simpl; tauto).

(** C3: when the rendered definition names the stack and every one of its
    resources has a type, none of them a launch configuration,
    [create_stack] answers 400 with the detail "Missing component type
    Senza::TaupageAutoScalingGroup"; the only collaborator call made is the
    rendering, so neither Kio's [versions_create] nor Senza's [create] is
    invoked. *)
Theorem create_stack_missing_component
    (new_stack items : pydict) (cf_raw_definition stack_name : pyvalue)
    (w1 : W) (st : state W) :
  let field k := dict_get new_stack k PNone in
  let application_version := dict_get new_stack "application_version" PNone in
  let parameters := dict_get new_stack "parameters" (PList []) in
  required_fields new_stack = true ->
  senza_render_definition env (field "senza_yaml") (field "stack_version")
    application_version parameters (world st) = (Ret cf_raw_definition, w1) ->
  definition_stack_name cf_raw_definition = Ret stack_name ->
  getitem cf_raw_definition "Resources" = Ret (PDict items) ->
  no_launch_configuration items = true ->
  create_stack env new_stack st
  = (Ret {| resp_body :=
              Problem 400 "Invalid senza yaml"
                "Missing component type Senza::TaupageAutoScalingGroup";
            resp_status := 400;
            resp_headers := _make_headers env |},
     {| world := w1;
        calls := (calls st ++
                  [Senza_render_definition (field "senza_yaml") (field "stack_version")
                     application_version parameters])%list;
        logs := (logs st ++
                 [mkLog ERROR "Missing component type Senza::TaupageAutoScalingGroup" []])%list
     |}).
Proof.
  intros field application_version parameters Hreq Hrender Hname Hres Hnone.
  subst field application_version parameters.
  read_request Hreq. run. rewrite Hrender. cbn.
  rewrite Hname, Hres. cbn.
  rewrite (scan_resources_no_launch_configuration _ _ Hnone). reflexivity.
Qed.

(** C4: with an application version supplied, whatever Kio's
    [versions_create] answers, in particular when it reports failure (a
    false [registered]), [create_stack] goes on to call Senza's [create]; and
    when that call succeeds the answer is 201 with the stack fetched
    afterwards.  The statement holds for every [registered] and the response
    does not mention it: a failed registration answers as a successful one. *)
Theorem create_stack_registration_failure
    (new_stack items : pydict)
    (cf_raw_definition stack_name artifact_name registered : pyvalue)
    (w1 w2 : W) (st : state W) :
  let field k := dict_get new_stack k PNone in
  let application_version := dict_get new_stack "application_version" PNone in
  let parameters := dict_get new_stack "parameters" (PList []) in
  let disable_rollback := dict_get new_stack "disable_rollback" (PBool false) in
  let tags := PDict [("LizzyKeepStacks", field "keep_stacks");
                     ("LizzyTargetTraffic", field "new_traffic")] in
  let render := Senza_render_definition (field "senza_yaml") (field "stack_version")
                  application_version parameters in
  let register := Kio_versions_create stack_name application_version artifact_name in
  let create := Senza_create (field "senza_yaml") (field "stack_version")
                  (field "image_version") parameters disable_rollback tags in
  required_fields new_stack = true ->
  truthy application_version = true ->
  senza_render_definition env (field "senza_yaml") (field "stack_version")
    application_version parameters (world st) = (Ret cf_raw_definition, w1) ->
  definition_stack_name cf_raw_definition = Ret stack_name ->
  getitem cf_raw_definition "Resources" = Ret (PDict items) ->
  scan_resources env items PNone = Ret artifact_name ->
  artifact_name <> PNone ->
  kio_versions_create env stack_name application_version artifact_name w1
  = (Ret registered, w2) ->
  (exists cs,
      calls (snd (create_stack env new_stack st))
      = (calls st ++ [render; register; create] ++ cs)%list) /\
  (forall created w3 stack_dict w4,
      senza_create env (field "senza_yaml") (field "stack_version")
        (field "image_version") parameters disable_rollback tags w2
      = (Ret created, w3) ->
      truthy created = true ->
      stack_get env stack_name (field "stack_version") w3 = (Ret stack_dict, w4) ->
      fst (create_stack env new_stack st)
      = Ret {| resp_body := Body stack_dict;
               resp_status := 201;
               resp_headers := _make_headers env |} /\
      calls (snd (create_stack env new_stack st))
      = (calls st ++ [render; register; create;
                      Stack_get stack_name (field "stack_version")])%list).
Proof.
  intros field application_version parameters disable_rollback tags render
    register create Hreq Happ Hrender Hname Hres Hscan Hart Hkio.
  subst field application_version parameters disable_rollback tags render
    register create.
  read_request Hreq. run. rewrite Hrender. cbn.
  rewrite Hname, Hres. cbn. rewrite Hscan.
  assert (Hcont : forall (A : Type) (x y : A),
             match artifact_name with PNone => x | _ => y end = y)
    by (intros; destruct artifact_name; congruence).
  rewrite Hcont. cbn. rewrite Happ. cbn. rewrite Hkio. cbn.
  split.
  - destruct (truthy registered); cbn;
      (destruct (senza_create env _ _ _ _ _ _ w2) as [[created|e0] w3]; cbn;
       [ destruct (truthy created); cbn;
         [ destruct (stack_get env _ _ w3) as [[sd|e1] w4]; cbn;
           rewrite <- !app_assoc; eexists; reflexivity
         | rewrite <- !app_assoc; exists []; reflexivity ]
       | rewrite <- !app_assoc; exists []; reflexivity ]).
  - intros created w3 stack_dict w4 Hcreate Hok Hget.
    destruct (truthy registered); cbn;
      rewrite Hcreate; cbn; rewrite Hok; cbn; rewrite Hget; cbn;
      rewrite <- !app_assoc; split; reflexivity.
Qed.

End Create.

Lemma create_stack_missing_component_witness :
  create_stack Demo.env_no_launch_configuration Demo.new_stack Demo.start
  = (Ret {| resp_body :=
              Problem 400 "Invalid senza yaml"
                "Missing component type Senza::TaupageAutoScalingGroup";
            resp_status := 400;
            resp_headers := [("X-Lizzy-Version", "1.0")] |},
     {| world := 1%nat;
        calls := [Senza_render_definition (PStr "SenzaInfo: {StackName: app}")
                    (PStr "7") (PStr "42") (PList [])];
        logs := [mkLog ERROR "Missing component type Senza::TaupageAutoScalingGroup" []]
     |}).
Proof.
  apply (create_stack_missing_component Demo.env_no_launch_configuration
           Demo.new_stack [("AppLoadBalancer", Demo.load_balancer)]
           (Demo.rendered [("AppLoadBalancer", Demo.load_balancer)])
           (PStr "app") 1%nat Demo.start);
    reflexivity.
Defined.

Lemma create_stack_registration_failure_witness :
  truthy (PBool false) = false /\
  fst (create_stack Demo.env_kio_fails Demo.new_stack Demo.start)
  = Ret {| resp_body := Body (Demo.stack_record (PStr "app") (PStr "7") 10 3);
           resp_status := 201;
           resp_headers := [("X-Lizzy-Version", "1.0")] |} /\
  calls (snd (create_stack Demo.env_kio_fails Demo.new_stack Demo.start))
  = [Senza_render_definition (PStr "SenzaInfo: {StackName: app}")
       (PStr "7") (PStr "42") (PList []);
     Kio_versions_create (PStr "app") (PStr "42") (PStr "registry/app:1.0");
     Senza_create (PStr "SenzaInfo: {StackName: app}") (PStr "7") (PStr "1.0")
       (PList []) (PBool false)
       (PDict [("LizzyKeepStacks", PInt 2); ("LizzyTargetTraffic", PInt 100)]);
     Stack_get (PStr "app") (PStr "7")].
Proof.
  split; [reflexivity|].
  apply (proj2 (create_stack_registration_failure Demo.env_kio_fails
                  Demo.new_stack Demo.resources (Demo.rendered Demo.resources)
                  (PStr "app") (PStr "registry/app:1.0") (PBool false)
                  1%nat 2%nat Demo.start
                  eq_refl eq_refl eq_refl eq_refl eq_refl eq_refl
                  ltac:(discriminate) eq_refl)
           (PBool true) 3%nat (Demo.stack_record (PStr "app") (PStr "7") 10 3) 4%nat);
    reflexivity.
Defined.

(** ** The version header *)

Section Headers.

Context {W : Type} (env : Env W).

Lemma post_ret {A : Type} (a : A) (Q : A -> Prop) : Q a -> post (W := W) (ret a) Q.
Proof. intros H st a' st' E. inversion E. subst. exact H. Qed.

Lemma post_raise {A : Type} (e : exn) (Q : A -> Prop) : post (W := W) (raise e) Q.
Proof. intros st a st' E. discriminate E. Qed.

Lemma post_bind {A B : Type} (m : M W A) (f : A -> M W B)
    (P : A -> Prop) (Q : B -> Prop) :
  post m P -> (forall a, P a -> post (f a) Q) -> post (bind m f) Q.
Proof.
  intros Hm Hf st b st' E. unfold bind in E.
  destruct (m st) as [[a|e] s1] eqn:Em; [|discriminate].
  exact (Hf a (Hm _ _ _ Em) _ _ _ E).
Qed.

Lemma post_bind_any {A B : Type} (m : M W A) (f : A -> M W B) (Q : B -> Prop) :
  (forall a, post (f a) Q) -> post (bind m f) Q.
Proof.
  intros Hf. apply post_bind with (P := fun _ => True).
  - intros st a st' _. exact I.
  - intros a _. apply Hf.
Qed.

Lemma post_try {A : Type} (m : M W A) (h : exn -> option (M W A)) (Q : A -> Prop) :
  post m Q -> (forall e k, h e = Some k -> post k Q) -> post (try_except m h) Q.
Proof.
  intros Hm Hh st a st' E. unfold try_except in E.
  destruct (m st) as [[a0|e] s1] eqn:Em.
  - inversion E. subst. exact (Hm _ _ _ Em).
  - destruct (h e) as [k|] eqn:Ek; [|discriminate].
    exact (Hh e k Ek _ _ _ E).
Qed.

Lemma problem_stamped (status : Z) (title detail : string) :
  has_version_header env
    (connexion_problem status title detail (Some (_make_headers env))).
Proof. reflexivity. Qed.

Lemma body_stamped (b : body) (status : Z) :
  has_version_header env (mkResponse b status (_make_headers env)).
Proof. reflexivity. Qed.

Lemma exception_to_connexion_problem_stamped (func : M W response) :
  post func (has_version_header env) ->
  post (exception_to_connexion_problem env func) (has_version_header env).
Proof.
  intros H. apply post_try; [exact H|].
  intros e k Hk. destruct e; inversion Hk. apply post_ret, problem_stamped.
Qed.

Lemma patch_image_stamped (name version : string) (stack_patch : pydict) :
  post (patch_image env name version stack_patch) (stamped_flow env).
Proof.
  unfold patch_image. destruct (contains_key "new_ami_image" stack_patch).
  - apply post_bind_any. intros new_ami_image. apply post_try.
    + repeat (apply post_bind_any; intros ?). apply post_ret. exact I.
    + intros e k Hk. destruct e; inversion Hk.
      apply post_bind_any. intros _. apply post_ret. apply problem_stamped.
  - apply post_ret. exact I.
Qed.

Lemma patch_traffic_stamped (name version : string) (stack_patch : pydict) :
  post (patch_traffic env name version stack_patch) (stamped_flow env).
Proof.
  unfold patch_traffic. destruct (contains_key "new_traffic" stack_patch).
  - apply post_bind_any. intros new_traffic. apply post_try.
    + apply post_bind_any. intros domains. destruct (truthy domains).
      * repeat (apply post_bind_any; intros ?). apply post_ret. exact I.
      * apply post_bind_any. intros _. apply post_raise.
    + intros e k Hk. destruct e; inversion Hk;
        (apply post_bind_any; intros _; apply post_ret; apply problem_stamped).
  - apply post_ret. exact I.
Qed.

(** C8 (amended): every response returned by [all_stacks], [create_stack],
    [get_stack], [patch_stack] and [delete_stack], success or failure, the
    404 of [exception_to_connexion_problem] included, carries the header
    [X-Lizzy-Version] with the version of the deployment. *)
Theorem handlers_stamp_version :
  post (all_stacks env) (has_version_header env) /\
  (forall new_stack, post (create_stack env new_stack) (has_version_header env)) /\
  (forall stack_id, post (get_stack env stack_id) (has_version_header env)) /\
  (forall stack_id stack_patch,
      post (patch_stack env stack_id stack_patch) (has_version_header env)) /\
  (forall stack_id, post (delete_stack env stack_id) (has_version_header env)).
Proof.
  split; [|split; [|split; [|split]]].
  - unfold all_stacks. repeat (apply post_bind_any; intros ?).
    apply post_ret, body_stamped.
  - intros new_stack. unfold create_stack.
    do 5 (apply post_bind_any; intros ?).
    apply post_bind with (P := stamped_flow env).
    { apply post_try.
      - apply post_bind_any. intros cf. apply post_ret. exact I.
      - intros e k Hk. destruct e; inversion Hk. apply post_ret, problem_stamped. }
    intros [r|cf] Hr; [apply post_ret, Hr|].
    apply post_bind with (P := stamped_flow env).
    { apply post_try.
      - do 4 (apply post_bind_any; intros ?).
        match goal with |- post (match ?x with _ => _ end) _ => destruct x end;
          try (apply post_ret; exact I).
        apply post_bind_any. intros _. apply post_ret, problem_stamped.
      - intros e k Hk. destruct e; inversion Hk.
        apply post_bind_any. intros _. apply post_ret, problem_stamped. }
    intros [r|[stack_name artifact_name]] Hr'; [apply post_ret, Hr'|].
    do 3 (apply post_bind_any; intros ?).
    match goal with |- post (if ?b then _ else _) _ => destruct b end.
    + do 2 (apply post_bind_any; intros ?). apply post_ret, body_stamped.
    + apply post_bind_any. intros _. apply post_ret, problem_stamped.
  - intros stack_id. unfold get_stack.
    apply exception_to_connexion_problem_stamped.
    apply post_bind_any. intros [name version].
    apply post_bind_any. intros stack_dict. apply post_ret, body_stamped.
  - intros stack_id stack_patch. unfold patch_stack.
    apply exception_to_connexion_problem_stamped.
    apply post_bind_any. intros [name version].
    apply post_bind_any. intros stack_dict.
    apply post_bind with (P := stamped_flow env); [apply patch_image_stamped|].
    intros [r|u] Hr; [apply post_ret, Hr|].
    apply post_bind with (P := stamped_flow env); [apply patch_traffic_stamped|].
    intros [r|u'] Hr'; [apply post_ret, Hr'|].
    apply post_bind_any. intros refreshed. apply post_ret, body_stamped.
  - intros stack_id. unfold delete_stack.
    apply post_bind_any. intros [name version].
    apply post_bind_any. intros _.
    apply post_bind with (P := stamped_flow env).
    { apply post_try.
      - repeat (apply post_bind_any; intros ?). apply post_ret. exact I.
      - intros e k Hk. destruct e; inversion Hk.
        apply post_bind_any. intros _. apply post_ret, problem_stamped. }
    intros [r|u] Hr; [apply post_ret, Hr | apply post_ret, body_stamped].
Qed.

End Headers.

(** C8, as stated, fails on the fallback for unknown paths: its 401 response
    is built without headers, so it has no [X-Lizzy-Version]. *)
Lemma not_found_path_handler_no_version_header :
  header "X-Lizzy-Version" (resp_headers (not_found_path_handler (PStr "no such path")))
  = None /\
  ~ has_version_header Demo.env (not_found_path_handler (PStr "no such path")).
Proof. split; [reflexivity | discriminate]. Qed.

Lemma handlers_stamp_version_witness :
  get_stack Demo.env_no_domain "ghost-1" Demo.start
  = (Ret (mkResponse (Body (Demo.stack_record (PStr "ghost") (PStr "1") 10 0)) 200
            [("X-Lizzy-Version", "1.0")]),
     {| world := 1%nat; calls := [Stack_get (PStr "ghost") (PStr "1")]; logs := [] |}) /\
  has_version_header Demo.env_no_domain
    (mkResponse (Body (Demo.stack_record (PStr "ghost") (PStr "1") 10 0)) 200
       [("X-Lizzy-Version", "1.0")]).
Proof.
  split; [reflexivity|].
  apply (proj1 (proj2 (proj2 (handlers_stamp_version Demo.env_no_domain)))
           "ghost-1" Demo.start _ _ eq_refl).
Defined.

(** ** [all_stacks] *)

Section Listing.

Lemma has_creation_time_key (stack : pyvalue) (t : Z) :
  creation_time stack = Some t -> getitem stack "creation_time" = Ret (PInt t).
Proof.
  unfold creation_time.
  destruct (getitem stack "creation_time") as [[| | z | | |]|]; try discriminate.
  intros H. inversion H. reflexivity.
Qed.

Lemma decorate_creation_time (stacks : list pyvalue) :
  Forall has_creation_time stacks ->
  exists entries,
    decorate (fun stack => getitem stack "creation_time") stacks = Ret entries /\
    map snd entries = stacks /\
    Forall timed entries.
Proof.
  induction 1 as [|stack stacks [t Ht] _ (entries & Hd & Hm & Hk)]; simpl.
  - exists []. repeat split. constructor.
  - rewrite (has_creation_time_key _ _ Ht). simpl. rewrite Hd. simpl.
    exists ((PInt t, stack) :: entries). simpl. rewrite Hm.
    repeat split. constructor; [exists t; split; [reflexivity | exact Ht] | exact Hk].
Qed.

Lemma entry_before_trans (a b c : pyvalue * pyvalue) :
  entry_before a b -> entry_before b c -> entry_before a c.
Proof.
  intros (ta & tb & Ha & Hb & Hab) (tb' & tc & Hb' & Hc & Hbc).
  rewrite Hb in Hb'. inversion Hb'. subst tb'.
  exists ta, tc. repeat split; [assumption | assumption | lia].
Qed.

Lemma insert_key_sorted (x : pyvalue * pyvalue) (entries : list (pyvalue * pyvalue)) :
  timed x -> Forall timed entries -> StronglySorted entry_before entries ->
  exists r,
    insert_key x entries = Ret r /\
    Permutation (x :: entries) r /\
    Forall timed r /\
    StronglySorted entry_before r.
Proof.
  intros Hx Hall Hsorted.
  induction entries as [|y entries IH]; simpl.
  - exists [x]. repeat split; auto. constructor; constructor.
  - inversion Hall as [|? ? Hy Hall']. subst.
    inversion Hsorted as [|? ? Hsorted' Hy_le]. subst.
    destruct Hx as (tx & Hkx & Hcx). destruct Hy as (ty & Hky & Hcy).
    rewrite Hky, Hkx. simpl.
    destruct (ty <? tx) eqn:Hlt.
    + destruct (IH Hall' Hsorted') as (r & Hr & Hperm & Htimed & Hs).
      rewrite Hr. simpl. exists (y :: r). repeat split.
      * rewrite perm_swap. apply perm_skip, Hperm.
      * constructor; [exists ty; split; assumption | exact Htimed].
      * constructor; [exact Hs|].
        apply (Permutation_Forall Hperm). constructor; [|exact Hy_le].
        exists ty, tx. apply Z.ltb_lt in Hlt. repeat split; [assumption | assumption | lia].
    + exists (x :: y :: entries). repeat split.
      * apply Permutation_refl.
      * constructor; [exists tx; split; assumption|]. exact Hall.
      * assert (Hxy : entry_before x y).
        { exists tx, ty. apply Z.ltb_ge in Hlt. repeat split; assumption. }
        constructor; [exact Hsorted|].
        constructor; [exact Hxy|].
        eapply Forall_impl; [|exact Hy_le].
        intros z Hz. exact (entry_before_trans _ _ _ Hxy Hz).
Qed.

Lemma sort_keys_sorted (entries : list (pyvalue * pyvalue)) :
  Forall timed entries ->
  exists r,
    sort_keys entries = Ret r /\
    Permutation entries r /\
    Forall timed r /\
    StronglySorted entry_before r.
Proof.
  induction 1 as [|x entries Hx _ (r & Hr & Hperm & Htimed & Hs)]; simpl.
  - exists []. repeat split; constructor.
  - rewrite Hr. simpl.
    destruct (insert_key_sorted x r Hx Htimed Hs) as (r' & Hr' & Hperm' & Htimed' & Hs').
    exists r'. repeat split; try assumption.
    rewrite <- Hperm'. apply perm_skip, Hperm.
Qed.

Lemma sorted_entries_stacks (entries : list (pyvalue * pyvalue)) :
  StronglySorted entry_before entries ->
  StronglySorted created_before (map snd entries).
Proof.
  induction 1 as [|x entries _ IH Hx]; simpl; constructor; [exact IH|].
  apply Forall_map. exact Hx.
Qed.

(** [list.sort] by creation time returns a sorted rearrangement. *)
Lemma list_sort_creation_time (stacks : list pyvalue) :
  Forall has_creation_time stacks ->
  exists sorted,
    list_sort (fun stack => getitem stack "creation_time") stacks = Ret sorted /\
    Permutation stacks sorted /\
    StronglySorted created_before sorted.
Proof.
  intros Hall. unfold list_sort.
  destruct (decorate_creation_time stacks Hall) as (entries & Hd & Hm & Hk).
  destruct (sort_keys_sorted entries Hk) as (r & Hr & Hperm & _ & Hs).
  rewrite Hd. simpl. rewrite Hr. simpl.
  exists (map snd r). repeat split.
  - rewrite <- Hm. apply Permutation_map, Hperm.
  - apply sorted_entries_stacks, Hs.
Qed.

Context {W : Type} (env : Env W).

(** C9: whatever list the listing source returns, in whatever order, if
    every stack in it has an integer creation time then [all_stacks] answers
    200 with a rearrangement of that list in which each stack was created no
    later than all the stacks after it. *)
Theorem all_stacks_sorted (stacks : list pyvalue) (w1 : W) (st : state W) :
  stack_list env (world st) = (Ret stacks, w1) ->
  Forall has_creation_time stacks ->
  exists sorted,
    all_stacks env st
    = (Ret {| resp_body := Body (PList sorted);
              resp_status := 200;
              resp_headers := _make_headers env |},
       {| world := w1; calls := (calls st ++ [Stack_list])%list; logs := logs st |}) /\
    Permutation stacks sorted /\
    StronglySorted created_before sorted.
Proof.
  intros Hlist Hall.
  destruct (list_sort_creation_time stacks Hall) as (sorted & Hsort & Hperm & Hs).
  exists sorted. split; [|split; assumption].
  unfold all_stacks. run. rewrite Hlist. cbn. rewrite Hsort. reflexivity.
Qed.

End Listing.

Lemma all_stacks_sorted_witness :
  exists sorted,
    all_stacks Demo.env Demo.start
    = (Ret {| resp_body := Body (PList sorted);
              resp_status := 200;
              resp_headers := [("X-Lizzy-Version", "1.0")] |},
       {| world := 1%nat; calls := ([] ++ [Stack_list])%list; logs := [] |}) /\
    Permutation
      [Demo.stack_record (PStr "app") (PStr "2") 30 0;
       Demo.stack_record (PStr "app") (PStr "1") 10 0;
       Demo.stack_record (PStr "web") (PStr "7") 20 0] sorted /\
    StronglySorted created_before sorted.
Proof.
  apply (all_stacks_sorted Demo.env _ 1%nat Demo.start).
  - reflexivity.
  - repeat constructor; eexists; reflexivity.
Defined.

(** * Further properties of the handlers *)

(** ** Identifier parsing, the other way round *)

Lemma rsplit_once_none_absent (sep : ascii) (s : string) :
  rsplit_once sep s = None -> has_char sep s = false.
Proof.
  induction s as [|c t IH]; simpl; [reflexivity|].
  destruct (rsplit_once sep t) as [[l r]|]; [discriminate|].
  destruct (Ascii.eqb c sep); [discriminate|].
  intros _. apply IH. reflexivity.
Qed.

Lemma rsplit_once_some (sep : ascii) (s l r : string) :
  rsplit_once sep s = Some (l, r) ->
  s = l ++ String sep r /\ has_char sep r = false.
Proof.
  revert l. induction s as [|c t IH]; simpl; [discriminate|].
  intros l. destruct (rsplit_once sep t) as [[l' r']|] eqn:Et.
  - intros H. inversion H. subst. destruct (IH l' eq_refl) as [Ht Hr].
    split; [simpl; rewrite <- Ht; reflexivity | exact Hr].
  - destruct (Ascii.eqb c sep) eqn:Ec; [|discriminate].
    intros H. inversion H. subst. apply Ascii.eqb_eq in Ec. subst c.
    split; [reflexivity | apply rsplit_once_none_absent, Et].
Qed.

(** X1: when the identifier parses to [(name, version)], the identifier is
    [name-version] and the version contains no separator: the split loses
    nothing. *)
Theorem parse_stack_id_inverse (stack_id name version : string) :
  parse_stack_id stack_id = Ret (name, version) ->
  stack_id = name ++ "-" ++ version /\ has_char "-" version = false.
Proof.
  unfold parse_stack_id, rsplit1.
  destruct (rsplit_once "-" stack_id) as [[l r]|] eqn:E; simpl; [|discriminate].
  intros H. inversion H. subst. exact (rsplit_once_some _ _ _ _ E).
Qed.

Lemma parse_stack_id_inverse_witness :
  parse_stack_id "my-app-42" = Ret ("my-app", "42") /\
  "my-app-42" = "my-app" ++ "-" ++ "42" /\ has_char "-" "42" = false.
Proof.
  split; [reflexivity|].
  apply (parse_stack_id_inverse "my-app-42" "my-app" "42"). reflexivity.
Defined.

(** X2: the identifier parses exactly when it contains the separator. *)
Theorem parse_stack_id_defined (stack_id : string) :
  has_char "-" stack_id = true <->
  exists name version, parse_stack_id stack_id = Ret (name, version).
Proof.
  split.
  - intros H. unfold parse_stack_id, rsplit1.
    destruct (rsplit_once "-" stack_id) as [[l r]|] eqn:E.
    + exists l, r. reflexivity.
    + rewrite (rsplit_once_none_absent _ _ E) in H. discriminate.
  - intros (name & version & H).
    destruct (has_char "-" stack_id) eqn:E; [reflexivity|].
    rewrite (parse_stack_id_absent _ E) in H. discriminate.
Qed.

(** ** [get_stack] *)

Section Get.

Context {W : Type} (env : Env W).

(** X3: for an identifier that parses, [get_stack] makes the one call
    [Stack.get(name, version)]; a stack is answered with 200, an
    [ObjectNotFound] with the 404 problem "Stack not found: uid", and any
    other exception leaves the handler as it is. *)
Theorem get_stack_outcome (stack_id name version : string) (st : state W) :
  parse_stack_id stack_id = Ret (name, version) ->
  let after w :=
    {| world := w;
       calls := (calls st ++ [Stack_get (PStr name) (PStr version)])%list;
       logs := logs st |} in
  (forall stack_dict w,
      stack_get env (PStr name) (PStr version) (world st) = (Ret stack_dict, w) ->
      get_stack env stack_id st
      = (Ret {| resp_body := Body stack_dict; resp_status := 200;
                resp_headers := _make_headers env |}, after w)) /\
  (forall uid w,
      stack_get env (PStr name) (PStr version) (world st)
      = (Raise (ObjectNotFound uid), w) ->
      get_stack env stack_id st
      = (Ret {| resp_body := Problem 404 "Not Found" ("Stack not found: " ++ uid);
                resp_status := 404;
                resp_headers := _make_headers env |}, after w)) /\
  (forall e w,
      stack_get env (PStr name) (PStr version) (world st) = (Raise e, w) ->
      is_object_not_found e = false ->
      get_stack env stack_id st = (Raise e, after w)).
Proof.
  intros Hid after. subst after. unfold get_stack. run. rewrite Hid. cbn.
  repeat split.
  - intros stack_dict w H. rewrite H. reflexivity.
  - intros uid w H. rewrite H. reflexivity.
  - intros e w H He. rewrite H. destruct e; try discriminate; reflexivity.
Qed.

End Get.

Lemma get_stack_outcome_witness :
  get_stack Scenario.unknown_stack "app-1" Demo.start
  = (Ret {| resp_body := Problem 404 "Not Found" "Stack not found: app-1";
            resp_status := 404;
            resp_headers := [("X-Lizzy-Version", "1.0")] |},
     {| world := 1%nat; calls := [Stack_get (PStr "app") (PStr "1")]; logs := [] |}).
Proof.
  apply (proj1 (proj2 (get_stack_outcome Scenario.unknown_stack "app-1" "app" "1"
                         Demo.start eq_refl)) "app-1" 1%nat).
  reflexivity.
Defined.

(** ** [patch_stack]: the other paths *)

Section PatchPaths.

Context {W : Type} (env : Env W).

(** X4: when the first fetch raises [ObjectNotFound], [patch_stack] answers
    the 404 problem and has called nothing but that fetch, whatever the
    request asked for. *)
Theorem patch_stack_not_found
    (stack_id name version uid : string) (stack_patch : pydict) (w1 : W) (st : state W) :
  parse_stack_id stack_id = Ret (name, version) ->
  stack_get env (PStr name) (PStr version) (world st) = (Raise (ObjectNotFound uid), w1) ->
  patch_stack env stack_id stack_patch st
  = (Ret {| resp_body := Problem 404 "Not Found" ("Stack not found: " ++ uid);
            resp_status := 404;
            resp_headers := _make_headers env |},
     {| world := w1;
        calls := (calls st ++ [Stack_get (PStr name) (PStr version)])%list;
        logs := logs st |}).
Proof.
  intros Hid Hget. unfold patch_stack. run. rewrite Hid. cbn. rewrite Hget. reflexivity.
Qed.

(** X5: a request with a new image and a new traffic percentage, all of
    whose steps succeed, is answered 202 with the stack as fetched last; the
    calls are, in this order, the fetch, the image patch, the respawn, the
    domain query, the traffic reassignment with the requested percentage,
    and the second fetch. *)
Theorem patch_stack_update_order
    (stack_id name version : string) (stack_patch : pydict)
    (new_ami_image new_traffic first domains refreshed : pyvalue)
    (w1 w2 w3 w4 w5 w6 : W) (st : state W) :
  parse_stack_id stack_id = Ret (name, version) ->
  assoc "new_ami_image" (filter_empty_values env stack_patch) = Some new_ami_image ->
  assoc "new_traffic" (filter_empty_values env stack_patch) = Some new_traffic ->
  stack_get env (PStr name) (PStr version) (world st) = (Ret first, w1) ->
  senza_patch env (PStr name) (PStr version) new_ami_image w1 = (Ret tt, w2) ->
  senza_respawn_instances env (PStr name) (PStr version) w2 = (Ret tt, w3) ->
  senza_domains env (PStr name) w3 = (Ret domains, w4) ->
  truthy domains = true ->
  senza_traffic env (PStr name) (PStr version) new_traffic w4 = (Ret tt, w5) ->
  stack_get env (PStr name) (PStr version) w5 = (Ret refreshed, w6) ->
  patch_stack env stack_id stack_patch st
  = (Ret {| resp_body := Body refreshed; resp_status := 202;
            resp_headers := _make_headers env |},
     {| world := w6;
        calls := (calls st ++
                  [Stack_get (PStr name) (PStr version);
                   Senza_patch (PStr name) (PStr version) new_ami_image;
                   Senza_respawn_instances (PStr name) (PStr version);
                   Senza_domains (PStr name);
                   Senza_traffic (PStr name) (PStr version) new_traffic;
                   Stack_get (PStr name) (PStr version)])%list;
        logs := (logs st ++ [mkLog INFO "Switching app traffic to stack." []])%list |}).
Proof.
  intros Hid Himg Htr Hget Hp Hr Hd Hsome Ht Hget'.
  unfold patch_stack, patch_image, patch_traffic.
  rewrite (contains_key_assoc _ _ _ Himg), (getitem_assoc _ _ _ Himg).
  rewrite (contains_key_assoc _ _ _ Htr), (getitem_assoc _ _ _ Htr).
  run. rewrite Hid. cbn. rewrite Hget. cbn. rewrite Hp. cbn. rewrite Hr. cbn.
  rewrite Hd. cbn. rewrite Hsome. cbn. rewrite Ht. cbn. rewrite Hget'. cbn.
  rewrite <- !app_assoc. reflexivity.
Qed.

(** X6: when the domain query raises [SenzaDomainsError], [patch_stack]
    answers 400 "Traffic update failed" with the error's message; the query
    is the last call, so no traffic is reassigned and the stack is not
    fetched again. *)
Theorem patch_stack_domains_error
    (stack_id name version message : string) (stack_patch : pydict)
    (new_traffic stack_dict : pyvalue) (w1 w3 : W) (st st2 : state W) :
  parse_stack_id stack_id = Ret (name, version) ->
  assoc "new_traffic" (filter_empty_values env stack_patch) = Some new_traffic ->
  stack_get env (PStr name) (PStr version) (world st) = (Ret stack_dict, w1) ->
  patch_image env name version (filter_empty_values env stack_patch)
    {| world := w1;
       calls := (calls st ++ [Stack_get (PStr name) (PStr version)])%list;
       logs := logs st |}
  = (Ret (Fallthrough tt), st2) ->
  senza_domains env (PStr name) (world st2) = (Raise (SenzaDomainsError message), w3) ->
  exists st',
    patch_stack env stack_id stack_patch st
    = (Ret {| resp_body := Problem 400 "Traffic update failed" message;
              resp_status := 400;
              resp_headers := _make_headers env |}, st') /\
    calls st' = (calls st2 ++ [Senza_domains (PStr name)])%list.
Proof.
  intros Hid Htr Hget Himg Hdom.
  unfold patch_stack, patch_traffic.
  rewrite (contains_key_assoc _ _ _ Htr), (getitem_assoc _ _ _ Htr).
  run. rewrite Hid. cbn. rewrite Hget. cbn. rewrite Himg. cbn.
  rewrite Hdom. cbn. eexists. split; reflexivity.
Qed.

(** X7: when the application has a domain and the traffic reassignment
    raises [SenzaTrafficError], [patch_stack] answers 400 "Traffic update
    failed" with the error's message, and the stack is not fetched again. *)
Theorem patch_stack_traffic_error
    (stack_id name version message : string) (stack_patch : pydict)
    (new_traffic stack_dict domains : pyvalue) (w1 w3 w4 : W) (st st2 : state W) :
  parse_stack_id stack_id = Ret (name, version) ->
  assoc "new_traffic" (filter_empty_values env stack_patch) = Some new_traffic ->
  stack_get env (PStr name) (PStr version) (world st) = (Ret stack_dict, w1) ->
  patch_image env name version (filter_empty_values env stack_patch)
    {| world := w1;
       calls := (calls st ++ [Stack_get (PStr name) (PStr version)])%list;
       logs := logs st |}
  = (Ret (Fallthrough tt), st2) ->
  senza_domains env (PStr name) (world st2) = (Ret domains, w3) ->
  truthy domains = true ->
  senza_traffic env (PStr name) (PStr version) new_traffic w3
  = (Raise (SenzaTrafficError message), w4) ->
  exists st',
    patch_stack env stack_id stack_patch st
    = (Ret {| resp_body := Problem 400 "Traffic update failed" message;
              resp_status := 400;
              resp_headers := _make_headers env |}, st') /\
    calls st'
    = (calls st2 ++ [Senza_domains (PStr name);
                     Senza_traffic (PStr name) (PStr version) new_traffic])%list.
Proof.
  intros Hid Htr Hget Himg Hdom Hsome Htraffic.
  unfold patch_stack, patch_traffic.
  rewrite (contains_key_assoc _ _ _ Htr), (getitem_assoc _ _ _ Htr).
  run. rewrite Hid. cbn. rewrite Hget. cbn. rewrite Himg. cbn.
  rewrite Hdom. cbn. rewrite Hsome. cbn. rewrite Htraffic. cbn.
  eexists. split; [reflexivity|]. cbn. rewrite <- !app_assoc. reflexivity.
Qed.

(** X8: the image update is not undone by a failing traffic update: when
    patch and respawn succeed and the traffic reassignment then raises
    [SenzaTrafficError], the answer is 400 "Traffic update failed" and the
    trace holds the patch and the respawn that were carried out. *)
Theorem patch_stack_partial_update
    (stack_id name version message : string) (stack_patch : pydict)
    (new_ami_image new_traffic first domains : pyvalue)
    (w1 w2 w3 w4 w5 : W) (st : state W) :
  parse_stack_id stack_id = Ret (name, version) ->
  assoc "new_ami_image" (filter_empty_values env stack_patch) = Some new_ami_image ->
  assoc "new_traffic" (filter_empty_values env stack_patch) = Some new_traffic ->
  stack_get env (PStr name) (PStr version) (world st) = (Ret first, w1) ->
  senza_patch env (PStr name) (PStr version) new_ami_image w1 = (Ret tt, w2) ->
  senza_respawn_instances env (PStr name) (PStr version) w2 = (Ret tt, w3) ->
  senza_domains env (PStr name) w3 = (Ret domains, w4) ->
  truthy domains = true ->
  senza_traffic env (PStr name) (PStr version) new_traffic w4
  = (Raise (SenzaTrafficError message), w5) ->
  fst (patch_stack env stack_id stack_patch st)
  = Ret {| resp_body := Problem 400 "Traffic update failed" message;
           resp_status := 400;
           resp_headers := _make_headers env |} /\
  calls (snd (patch_stack env stack_id stack_patch st))
  = (calls st ++
     [Stack_get (PStr name) (PStr version);
      Senza_patch (PStr name) (PStr version) new_ami_image;
      Senza_respawn_instances (PStr name) (PStr version);
      Senza_domains (PStr name);
      Senza_traffic (PStr name) (PStr version) new_traffic])%list.
Proof.
  intros Hid Himg Htr Hget Hp Hr Hd Hsome Ht.
  unfold patch_stack, patch_image, patch_traffic.
  rewrite (contains_key_assoc _ _ _ Himg), (getitem_assoc _ _ _ Himg).
  rewrite (contains_key_assoc _ _ _ Htr), (getitem_assoc _ _ _ Htr).
  run. rewrite Hid. cbn. rewrite Hget. cbn. rewrite Hp. cbn. rewrite Hr. cbn.
  rewrite Hd. cbn. rewrite Hsome. cbn. rewrite Ht. cbn.
  rewrite <- !app_assoc. split; reflexivity.
Qed.

(** X9: when both steps have gone through and the final fetch raises
    [ObjectNotFound], [patch_stack] answers the 404 problem; what the steps
    did stays in the trace. *)
Theorem patch_stack_vanished
    (stack_id name version uid : string) (stack_patch : pydict)
    (stack_dict : pyvalue) (w1 w4 : W) (st st2 st3 : state W) :
  parse_stack_id stack_id = Ret (name, version) ->
  stack_get env (PStr name) (PStr version) (world st) = (Ret stack_dict, w1) ->
  patch_image env name version (filter_empty_values env stack_patch)
    {| world := w1;
       calls := (calls st ++ [Stack_get (PStr name) (PStr version)])%list;
       logs := logs st |}
  = (Ret (Fallthrough tt), st2) ->
  patch_traffic env name version (filter_empty_values env stack_patch) st2
  = (Ret (Fallthrough tt), st3) ->
  stack_get env (PStr name) (PStr version) (world st3) = (Raise (ObjectNotFound uid), w4) ->
  patch_stack env stack_id stack_patch st
  = (Ret {| resp_body := Problem 404 "Not Found" ("Stack not found: " ++ uid);
            resp_status := 404;
            resp_headers := _make_headers env |},
     {| world := w4;
        calls := (calls st3 ++ [Stack_get (PStr name) (PStr version)])%list;
        logs := logs st3 |}).
Proof.
  intros Hid Hget Himg Htr Hget'.
  unfold patch_stack. run. rewrite Hid. cbn. rewrite Hget. cbn.
  rewrite Himg. cbn. rewrite Htr. cbn. rewrite Hget'. reflexivity.
Qed.

(** X10: when the image patch raises, whatever the exception, the patch is
    the last call of [patch_stack]: no respawn, no domain query, no traffic
    reassignment and no second fetch follow. *)
Theorem patch_stack_patch_raises
    (stack_id name version : string) (stack_patch : pydict)
    (new_ami_image stack_dict : pyvalue) (e : exn) (w1 w2 : W) (st : state W) :
  parse_stack_id stack_id = Ret (name, version) ->
  assoc "new_ami_image" (filter_empty_values env stack_patch) = Some new_ami_image ->
  stack_get env (PStr name) (PStr version) (world st) = (Ret stack_dict, w1) ->
  senza_patch env (PStr name) (PStr version) new_ami_image w1 = (Raise e, w2) ->
  calls (snd (patch_stack env stack_id stack_patch st))
  = (calls st ++ [Stack_get (PStr name) (PStr version);
                  Senza_patch (PStr name) (PStr version) new_ami_image])%list.
Proof.
  intros Hid Himg Hget Hp.
  unfold patch_stack, patch_image.
  rewrite (contains_key_assoc _ _ _ Himg), (getitem_assoc _ _ _ Himg).
  run. rewrite Hid. cbn. rewrite Hget. cbn. rewrite Hp. cbn.
  destruct e; cbn; rewrite <- !app_assoc; reflexivity.
Qed.

End PatchPaths.

Lemma patch_stack_not_found_witness :
  patch_stack Scenario.unknown_stack "app-1"
    [("new_ami_image", PStr "ami-42"); ("new_traffic", PInt 50)] Demo.start
  = (Ret {| resp_body := Problem 404 "Not Found" "Stack not found: app-1";
            resp_status := 404;
            resp_headers := [("X-Lizzy-Version", "1.0")] |},
     {| world := 1%nat; calls := [Stack_get (PStr "app") (PStr "1")]; logs := [] |}).
Proof.
  apply (patch_stack_not_found Scenario.unknown_stack "app-1" "app" "1" "app-1"
           _ 1%nat Demo.start); reflexivity.
Defined.

Lemma patch_stack_update_order_witness :
  patch_stack Demo.env "app-1"
    [("new_ami_image", PStr "ami-42"); ("new_traffic", PInt 50)] Demo.start
  = (Ret {| resp_body := Body (Demo.stack_record (PStr "app") (PStr "1") 10 5);
            resp_status := 202;
            resp_headers := [("X-Lizzy-Version", "1.0")] |},
     {| world := 6%nat;
        calls := [Stack_get (PStr "app") (PStr "1");
                  Senza_patch (PStr "app") (PStr "1") (PStr "ami-42");
                  Senza_respawn_instances (PStr "app") (PStr "1");
                  Senza_domains (PStr "app");
                  Senza_traffic (PStr "app") (PStr "1") (PInt 50);
                  Stack_get (PStr "app") (PStr "1")];
        logs := [mkLog INFO "Switching app traffic to stack." []] |}).
Proof.
  apply (patch_stack_update_order Demo.env "app-1" "app" "1" _
           (PStr "ami-42") (PInt 50)
           (Demo.stack_record (PStr "app") (PStr "1") 10 0) Demo.one_domain
           (Demo.stack_record (PStr "app") (PStr "1") 10 5)
           1%nat 2%nat 3%nat 4%nat 5%nat 6%nat Demo.start); reflexivity.
Defined.

Lemma patch_stack_domains_error_witness :
  exists st',
    patch_stack Scenario.domains_error "app-1" [("new_traffic", PInt 50)] Demo.start
    = (Ret {| resp_body := Problem 400 "Traffic update failed" "no hosted zone";
              resp_status := 400;
              resp_headers := [("X-Lizzy-Version", "1.0")] |}, st') /\
    calls st' = [Stack_get (PStr "app") (PStr "1"); Senza_domains (PStr "app")].
Proof.
  apply (patch_stack_domains_error Scenario.domains_error "app-1" "app" "1"
           "no hosted zone" [("new_traffic", PInt 50)] (PInt 50)
           (Demo.stack_record (PStr "app") (PStr "1") 10 0) 1%nat 2%nat Demo.start
           {| world := 1%nat; calls := [Stack_get (PStr "app") (PStr "1")]; logs := [] |});
    reflexivity.
Defined.

Lemma patch_stack_traffic_error_witness :
  exists st',
    patch_stack Scenario.traffic_error "app-1" [("new_traffic", PInt 50)] Demo.start
    = (Ret {| resp_body := Problem 400 "Traffic update failed" "weights rejected";
              resp_status := 400;
              resp_headers := [("X-Lizzy-Version", "1.0")] |}, st') /\
    calls st' = [Stack_get (PStr "app") (PStr "1"); Senza_domains (PStr "app");
                 Senza_traffic (PStr "app") (PStr "1") (PInt 50)].
Proof.
  apply (patch_stack_traffic_error Scenario.traffic_error "app-1" "app" "1"
           "weights rejected" [("new_traffic", PInt 50)] (PInt 50)
           (Demo.stack_record (PStr "app") (PStr "1") 10 0) Demo.one_domain
           1%nat 2%nat 3%nat Demo.start
           {| world := 1%nat; calls := [Stack_get (PStr "app") (PStr "1")]; logs := [] |});
    reflexivity.
Defined.

Lemma patch_stack_partial_update_witness :
  fst (patch_stack Scenario.traffic_error "app-1"
         [("new_ami_image", PStr "ami-42"); ("new_traffic", PInt 50)] Demo.start)
  = Ret {| resp_body := Problem 400 "Traffic update failed" "weights rejected";
           resp_status := 400;
           resp_headers := [("X-Lizzy-Version", "1.0")] |} /\
  calls (snd (patch_stack Scenario.traffic_error "app-1"
                [("new_ami_image", PStr "ami-42"); ("new_traffic", PInt 50)] Demo.start))
  = [Stack_get (PStr "app") (PStr "1");
     Senza_patch (PStr "app") (PStr "1") (PStr "ami-42");
     Senza_respawn_instances (PStr "app") (PStr "1");
     Senza_domains (PStr "app");
     Senza_traffic (PStr "app") (PStr "1") (PInt 50)].
Proof.
  apply (patch_stack_partial_update Scenario.traffic_error "app-1" "app" "1"
           "weights rejected" _ (PStr "ami-42") (PInt 50)
           (Demo.stack_record (PStr "app") (PStr "1") 10 0) Demo.one_domain
           1%nat 2%nat 3%nat 4%nat 5%nat Demo.start); reflexivity.
Defined.

Lemma patch_stack_vanished_witness :
  patch_stack Scenario.vanishing_stack "app-1" [("new_traffic", PInt 50)] Demo.start
  = (Ret {| resp_body := Problem 404 "Not Found" "Stack not found: app-1";
            resp_status := 404;
            resp_headers := [("X-Lizzy-Version", "1.0")] |},
     {| world := 4%nat;
        calls := [Stack_get (PStr "app") (PStr "1"); Senza_domains (PStr "app");
                  Senza_traffic (PStr "app") (PStr "1") (PInt 50);
                  Stack_get (PStr "app") (PStr "1")];
        logs := [mkLog INFO "Switching app traffic to stack." []] |}).
Proof.
  apply (patch_stack_vanished Scenario.vanishing_stack "app-1" "app" "1" "app-1"
           [("new_traffic", PInt 50)]
           (Demo.stack_record (PStr "app") (PStr "1") 10 0) 1%nat 4%nat Demo.start
           {| world := 1%nat; calls := [Stack_get (PStr "app") (PStr "1")]; logs := [] |}
           {| world := 3%nat;
              calls := [Stack_get (PStr "app") (PStr "1"); Senza_domains (PStr "app");
                        Senza_traffic (PStr "app") (PStr "1") (PInt 50)];
              logs := [mkLog INFO "Switching app traffic to stack." []] |});
    reflexivity.
Defined.

Lemma patch_stack_patch_raises_witness :
  calls (snd (patch_stack Demo.env_patch_fails "app-1"
                [("new_ami_image", PStr "ami-42"); ("new_traffic", PInt 50)] Demo.start))
  = [Stack_get (PStr "app") (PStr "1");
     Senza_patch (PStr "app") (PStr "1") (PStr "ami-42")].
Proof.
  apply (patch_stack_patch_raises Demo.env_patch_fails "app-1" "app" "1" _
           (PStr "ami-42") (Demo.stack_record (PStr "app") (PStr "1") 10 0)
           (ExecutionError "patch failed" "senza: error") 1%nat 2%nat Demo.start);
    reflexivity.
Defined.

(** ** What a handler calls *)

Section Footprint.

Context {W : Type}.

Variable allowed : call -> bool.

Lemma only_ret {A : Type} (a : A) : only (W := W) allowed (ret a).
Proof. intros st. exists []. rewrite app_nil_r. split; reflexivity. Qed.

Lemma only_raise {A : Type} (e : exn) : only (W := W) (A := A) allowed (raise e).
Proof. intros st. exists []. rewrite app_nil_r. split; reflexivity. Qed.

Lemma only_lift {A : Type} (o : outcome A) : only (W := W) allowed (lift o).
Proof. intros st. exists []. rewrite app_nil_r. split; reflexivity. Qed.

Lemma only_log (lvl : level) (msg : string) (args : list pyvalue) :
  only (W := W) allowed (log lvl msg args).
Proof. intros st. exists []. cbn. rewrite app_nil_r. split; reflexivity. Qed.

Lemma only_invoke {A : Type} (c : call) (f : W -> outcome A * W) :
  allowed c = true -> only allowed (invoke c f).
Proof.
  intros H st. exists [c]. unfold invoke. destruct (f (world st)) as [r w'].
  cbn. rewrite H. split; reflexivity.
Qed.

Lemma only_bind {A B : Type} (m : M W A) (f : A -> M W B) :
  only allowed m -> (forall a, only allowed (f a)) -> only allowed (bind m f).
Proof.
  intros Hm Hf st. destruct (Hm st) as (c1 & E1 & F1). unfold bind.
  destruct (m st) as [[a|e] s1]; cbn in *.
  - destruct (Hf a s1) as (c2 & E2 & F2). exists (c1 ++ c2)%list.
    rewrite E2, E1, app_assoc, forallb_app, F1, F2. split; reflexivity.
  - exists c1. split; assumption.
Qed.

Lemma only_try {A : Type} (m : M W A) (h : exn -> option (M W A)) :
  only allowed m -> (forall e k, h e = Some k -> only allowed k) ->
  only allowed (try_except m h).
Proof.
  intros Hm Hh st. destruct (Hm st) as (c1 & E1 & F1). unfold try_except.
  destruct (m st) as [[a|e] s1]; cbn in *.
  - exists c1. split; assumption.
  - destruct (h e) as [k|] eqn:Ek.
    + destruct (Hh e k Ek s1) as (c2 & E2 & F2). exists (c1 ++ c2)%list.
      rewrite E2, E1, app_assoc, forallb_app, F1, F2. split; reflexivity.
    + exists c1. split; assumption.
Qed.

End Footprint.

(** [footprint] walks through a handler, statement by statement. *)
Ltac footprint :=
  repeat first
    [ apply only_ret
    | apply only_raise
    | apply only_lift
    | apply only_log
    | apply only_invoke; reflexivity
    | apply only_bind; [|intros ?]
    | apply only_try; [|let e := fresh "e" in
                        let k := fresh "k" in
                        let Hk := fresh "Hk" in
                        intros e k Hk; destruct e; inversion Hk; subst]
    | match goal with
      | |- only _ (match ?x with _ => _ end) => destruct x
      | |- only _ (if ?b then _ else _) => destruct b
      end ].

Section Footprints.

Context {W : Type} (env : Env W).

(** X17: [all_stacks] calls nothing but the listing and [get_stack] nothing
    but [Stack.get], whatever the collaborators answer: the two reading
    handlers never make a call that changes a stack. *)
Theorem reading_handlers_footprint :
  only is_stack_list (all_stacks env) /\
  (forall stack_id, only is_stack_get (get_stack env stack_id)) /\
  (forall (c : call),
      (is_stack_list c = true \/ is_stack_get c = true) -> is_mutating c = false).
Proof.
  split; [|split].
  - unfold all_stacks. footprint.
  - intros stack_id. unfold get_stack, exception_to_connexion_problem. footprint.
  - intros c [H|H]; destruct c; try discriminate; reflexivity.
Qed.

(** X18: on every path [patch_stack] calls only [Stack.get] and Senza's
    [patch], [respawn_instances], [domains] and [traffic]: it never renders,
    creates or removes a stack and never talks to Kio. *)
Theorem patch_stack_footprint (stack_id : string) (stack_patch : pydict) :
  only patch_footprint (patch_stack env stack_id stack_patch).
Proof.
  unfold patch_stack, exception_to_connexion_problem, patch_image, patch_traffic.
  cbv zeta. footprint.
Qed.

(** X19: on every path [create_stack] calls only Senza's
    [render_definition] and [create], Kio's [versions_create] and
    [Stack.get]: it never patches, respawns, shifts traffic or removes. *)
Theorem create_stack_footprint (new_stack : pydict) :
  only create_footprint (create_stack env new_stack).
Proof.
  unfold create_stack. cbv zeta. footprint.
Qed.

(** X14: without an application version in the request (absent, [None] or
    empty), [create_stack] never calls Kio, on any path. *)
Theorem create_stack_unversioned (new_stack : pydict) :
  truthy (dict_get new_stack "application_version" PNone) = false ->
  only (fun c => negb (is_kio c)) (create_stack env new_stack).
Proof.
  intros H. unfold create_stack. cbv zeta. rewrite H. footprint.
Qed.

End Footprints.

Lemma create_stack_unversioned_witness :
  truthy (dict_get Scenario.new_stack_unversioned "application_version" PNone) = false /\
  only (fun c => negb (is_kio c)) (create_stack Demo.env Scenario.new_stack_unversioned).
Proof.
  split; [reflexivity|].
  apply (create_stack_unversioned Demo.env Scenario.new_stack_unversioned). reflexivity.
Defined.

(** ** [create_stack]: the other paths *)

Section CreatePaths.

Context {W : Type} (env : Env W).

Ltac read_fields Hreq :=
  unfold create_stack;
  rewrite (required_fields_getitem _ "keep_stacks" Hreq) by (simpl; tauto);
  rewrite (required_fields_getitem _ "new_traffic" Hreq) by (simpl; tauto);
  rewrite (required_fields_getitem _ "image_version" Hreq) by (simpl; tauto);
  rewrite (required_fields_getitem _ "stack_version" Hreq) by (simpl; tauto);
  rewrite (required_fields_getitem _ "senza_yaml" Hreq) by (simpl; tauto).

(** X11: when the rendering raises [SenzaRenderError], [create_stack]
    answers 400 "Invalid senza yaml" with the error's message; the rendering
    is its only call and nothing is logged. *)
Theorem create_stack_render_error
    (new_stack : pydict) (message : string) (w1 : W) (st : state W) :
  let field k := dict_get new_stack k PNone in
  let application_version := dict_get new_stack "application_version" PNone in
  let parameters := dict_get new_stack "parameters" (PList []) in
  required_fields new_stack = true ->
  senza_render_definition env (field "senza_yaml") (field "stack_version")
    application_version parameters (world st) = (Raise (SenzaRenderError message), w1) ->
  create_stack env new_stack st
  = (Ret {| resp_body := Problem 400 "Invalid senza yaml" message;
            resp_status := 400;
            resp_headers := _make_headers env |},
     {| world := w1;
        calls := (calls st ++
                  [Senza_render_definition (field "senza_yaml") (field "stack_version")
                     application_version parameters])%list;
        logs := logs st |}).
Proof.
  intros field application_version parameters Hreq Hrender.
  subst field application_version parameters.
  read_fields Hreq. run. rewrite Hrender. reflexivity.
Qed.

(** X12: when reading the stack name or scanning the resources of the
    rendered definition raises [KeyError], [create_stack] answers 400
    "Invalid senza yaml" with a detail that names the missing key; the
    rendering is its only call. *)
Theorem create_stack_missing_property
    (new_stack : pydict) (cf_raw_definition : pyvalue) (key : string)
    (w1 : W) (st : state W) :
  let field k := dict_get new_stack k PNone in
  let application_version := dict_get new_stack "application_version" PNone in
  let parameters := dict_get new_stack "parameters" (PList []) in
  required_fields new_stack = true ->
  senza_render_definition env (field "senza_yaml") (field "stack_version")
    application_version parameters (world st) = (Ret cf_raw_definition, w1) ->
  find_artifact env cf_raw_definition = Raise (KeyError key) ->
  create_stack env new_stack st
  = (Ret {| resp_body :=
              Problem 400 "Invalid senza yaml"
                ("Missing property in senza yaml: '" ++ key ++ "'");
            resp_status := 400;
            resp_headers := _make_headers env |},
     {| world := w1;
        calls := (calls st ++
                  [Senza_render_definition (field "senza_yaml") (field "stack_version")
                     application_version parameters])%list;
        logs := (logs st ++
                 [mkLog ERROR "Couldn't get stack name from definition." []])%list |}).
Proof.
  intros field application_version parameters Hreq Hrender Hfind.
  subst field application_version parameters.
  read_fields Hreq. run. rewrite Hrender. cbn.
  unfold find_artifact in Hfind.
  destruct (definition_stack_name cf_raw_definition) as [stack_name|e1];
    cbn in Hfind; [|inversion Hfind; subst; reflexivity].
  destruct (getitem cf_raw_definition "Resources") as [resources|e2];
    cbn in Hfind; [|inversion Hfind; subst; reflexivity].
  destruct (py_items resources) as [items|e3];
    cbn in Hfind; [|inversion Hfind; subst; reflexivity].
  destruct (scan_resources env items PNone) as [artifact_name|e4];
    cbn in Hfind; [discriminate|inversion Hfind; subst; reflexivity].
Qed.

(** X13: when the artifact is found and Senza's [create] returns a false
    value, [create_stack] answers 400 "Deployment Failed"; [create] is its
    last call, so the stack is not fetched. *)
Theorem create_stack_deployment_failed
    (new_stack : pydict) (cf_raw_definition stack_name artifact_name created : pyvalue)
    (w1 w2 w3 : W) (st : state W) :
  let field k := dict_get new_stack k PNone in
  let application_version := dict_get new_stack "application_version" PNone in
  let parameters := dict_get new_stack "parameters" (PList []) in
  let disable_rollback := dict_get new_stack "disable_rollback" (PBool false) in
  let tags := PDict [("LizzyKeepStacks", field "keep_stacks");
                     ("LizzyTargetTraffic", field "new_traffic")] in
  let render := Senza_render_definition (field "senza_yaml") (field "stack_version")
                  application_version parameters in
  let register := Kio_versions_create stack_name application_version artifact_name in
  let create := Senza_create (field "senza_yaml") (field "stack_version")
                  (field "image_version") parameters disable_rollback tags in
  required_fields new_stack = true ->
  senza_render_definition env (field "senza_yaml") (field "stack_version")
    application_version parameters (world st) = (Ret cf_raw_definition, w1) ->
  find_artifact env cf_raw_definition = Ret (stack_name, artifact_name) ->
  artifact_name <> PNone ->
  (truthy application_version = false /\ w2 = w1 \/
   truthy application_version = true /\
   exists registered,
     kio_versions_create env stack_name application_version artifact_name w1
     = (Ret registered, w2)) ->
  senza_create env (field "senza_yaml") (field "stack_version")
    (field "image_version") parameters disable_rollback tags w2 = (Ret created, w3) ->
  truthy created = false ->
  fst (create_stack env new_stack st)
  = Ret {| resp_body := Problem 400 "Deployment Failed" "Senza create command failed.";
           resp_status := 400;
           resp_headers := _make_headers env |} /\
  calls (snd (create_stack env new_stack st))
  = (calls st ++ [render] ++
     (if truthy application_version then [register] else []) ++ [create])%list.
Proof.
  intros field application_version parameters disable_rollback tags render
    register create Hreq Hrender Hfind Hart Hreg Hcreate Hrefused.
  subst field application_version parameters disable_rollback tags render
    register create.
  read_fields Hreq. run. rewrite Hrender. cbn.
  unfold find_artifact in Hfind.
  destruct (definition_stack_name cf_raw_definition) as [sn|e1];
    cbn in Hfind; [|discriminate].
  destruct (getitem cf_raw_definition "Resources") as [resources|e2];
    cbn in Hfind; [|discriminate].
  destruct (py_items resources) as [items|e3]; cbn in Hfind; [|discriminate].
  destruct (scan_resources env items PNone) as [an|e4]; cbn in Hfind; [|discriminate].
  inversion Hfind. subst sn an.
  assert (Hcont : forall (A : Type) (x y : A),
             match artifact_name with PNone => x | _ => y end = y)
    by (intros; destruct artifact_name; congruence).
  rewrite Hcont. cbn.
  destruct Hreg as [[Hno Hw] | [Hyes [registered Hkio]]].
  - subst w2. rewrite Hno. cbn. rewrite Hcreate. cbn. rewrite Hrefused. cbn.
    rewrite <- !app_assoc. split; reflexivity.
  - rewrite Hyes. cbn. rewrite Hkio. cbn.
    destruct (truthy registered); cbn; rewrite Hcreate; cbn; rewrite Hrefused; cbn;
      rewrite <- !app_assoc; split; reflexivity.
Qed.

(** X15: when the request lacks one of the fields read with
    [new_stack[...]], [create_stack] raises [KeyError] for a missing field
    before any call is made; the error is not turned into a response. *)
Theorem create_stack_missing_field (new_stack : pydict) (st : state W) :
  required_fields new_stack = false ->
  exists key,
    contains_key key new_stack = false /\
    In key ["keep_stacks"; "new_traffic"; "image_version"; "stack_version"; "senza_yaml"] /\
    create_stack env new_stack st = (Raise (KeyError key), st).
Proof.
  unfold required_fields, contains_key, create_stack. cbn [forallb]. run.
  cbn [getitem].
  destruct (assoc "keep_stacks" new_stack) eqn:E1;
    [|intros _; exists "keep_stacks"; rewrite E1; cbn; tauto].
  destruct (assoc "new_traffic" new_stack) eqn:E2;
    [|intros _; exists "new_traffic"; rewrite E2; cbn; tauto].
  destruct (assoc "image_version" new_stack) eqn:E3;
    [|intros _; exists "image_version"; rewrite E3; cbn; tauto].
  destruct (assoc "stack_version" new_stack) eqn:E4;
    [|intros _; exists "stack_version"; rewrite E4; cbn; tauto].
  destruct (assoc "senza_yaml" new_stack) eqn:E5;
    [|intros _; exists "senza_yaml"; rewrite E5; cbn; tauto].
  discriminate.
Qed.

Lemma scan_resources_app (items items' : pydict) (artifact_name : pyvalue) :
  scan_resources env (items ++ items')%list artifact_name
  = (found <~ scan_resources env items artifact_name ;;
     scan_resources env items' found).
Proof.
  revert artifact_name.
  induction items as [|[resource definition] items IH]; intros artifact_name; simpl;
    [reflexivity|].
  destruct (getitem definition "Type") as [ty|e]; simpl; [|reflexivity].
  destruct (py_eq_str ty "AWS::AutoScaling::LaunchConfiguration"); [|apply IH].
  destruct (getitem definition "Properties") as [p|e]; simpl; [|reflexivity].
  destruct (getitem p "UserData") as [u|e]; simpl; [|reflexivity].
  destruct (getitem u "Fn::Base64") as [y|e]; simpl; [|reflexivity].
  destruct (yaml_safe_load env y) as [c|e]; simpl; [|reflexivity].
  destruct (getitem c "source") as [s|e]; simpl; [|reflexivity].
  apply IH.
Qed.

(** X16: the artifact name comes from the last launch configuration: when
    the scan of the earlier resources goes through and the last resource is
    a launch configuration, the result is what that resource alone gives,
    whatever the earlier resources and the initial value were. *)
Theorem scan_resources_last
    (items : pydict) (resource : string) (definition ty before found : pyvalue) :
  getitem definition "Type" = Ret ty ->
  py_eq_str ty "AWS::AutoScaling::LaunchConfiguration" = true ->
  scan_resources env items before = Ret found ->
  scan_resources env (items ++ [(resource, definition)])%list before
  = scan_resources env [(resource, definition)] PNone.
Proof.
  intros Hty Hlc Hscan. rewrite scan_resources_app, Hscan. simpl.
  rewrite Hty. simpl. rewrite Hlc. reflexivity.
Qed.

End CreatePaths.

Lemma create_stack_render_error_witness :
  create_stack Scenario.render_error Demo.new_stack Demo.start
  = (Ret {| resp_body := Problem 400 "Invalid senza yaml" "yaml: line 3: bad indent";
            resp_status := 400;
            resp_headers := [("X-Lizzy-Version", "1.0")] |},
     {| world := 1%nat;
        calls := [Senza_render_definition (PStr "SenzaInfo: {StackName: app}")
                    (PStr "7") (PStr "42") (PList [])];
        logs := [] |}).
Proof.
  apply (create_stack_render_error Scenario.render_error Demo.new_stack
           "yaml: line 3: bad indent" 1%nat Demo.start); reflexivity.
Defined.

Lemma create_stack_missing_property_witness :
  create_stack Scenario.no_mappings Demo.new_stack Demo.start
  = (Ret {| resp_body :=
              Problem 400 "Invalid senza yaml" "Missing property in senza yaml: 'Mappings'";
            resp_status := 400;
            resp_headers := [("X-Lizzy-Version", "1.0")] |},
     {| world := 1%nat;
        calls := [Senza_render_definition (PStr "SenzaInfo: {StackName: app}")
                    (PStr "7") (PStr "42") (PList [])];
        logs := [mkLog ERROR "Couldn't get stack name from definition." []] |}).
Proof.
  apply (create_stack_missing_property Scenario.no_mappings Demo.new_stack
           (PDict [("Resources", PDict Demo.resources)]) "Mappings" 1%nat Demo.start);
    reflexivity.
Defined.

Lemma create_stack_deployment_failed_witness :
  fst (create_stack Scenario.create_refused Demo.new_stack Demo.start)
  = Ret {| resp_body := Problem 400 "Deployment Failed" "Senza create command failed.";
           resp_status := 400;
           resp_headers := [("X-Lizzy-Version", "1.0")] |} /\
  calls (snd (create_stack Scenario.create_refused Demo.new_stack Demo.start))
  = [Senza_render_definition (PStr "SenzaInfo: {StackName: app}")
       (PStr "7") (PStr "42") (PList []);
     Kio_versions_create (PStr "app") (PStr "42") (PStr "registry/app:1.0");
     Senza_create (PStr "SenzaInfo: {StackName: app}") (PStr "7") (PStr "1.0")
       (PList []) (PBool false)
       (PDict [("LizzyKeepStacks", PInt 2); ("LizzyTargetTraffic", PInt 100)])].
Proof.
  apply (create_stack_deployment_failed Scenario.create_refused Demo.new_stack
           (Demo.rendered Demo.resources) (PStr "app") (PStr "registry/app:1.0")
           (PBool false) 1%nat 2%nat 3%nat Demo.start).
  - reflexivity.
  - reflexivity.
  - reflexivity.
  - discriminate.
  - right. split; [reflexivity|]. exists (PBool true). reflexivity.
  - reflexivity.
  - reflexivity.
Defined.

Lemma create_stack_missing_field_witness :
  exists key,
    contains_key key Scenario.new_stack_incomplete = false /\
    In key ["keep_stacks"; "new_traffic"; "image_version"; "stack_version"; "senza_yaml"] /\
    create_stack Demo.env Scenario.new_stack_incomplete Demo.start
    = (Raise (KeyError key), Demo.start).
Proof.
  apply (create_stack_missing_field Demo.env Scenario.new_stack_incomplete Demo.start).
  reflexivity.
Defined.

Lemma scan_resources_last_witness :
  scan_resources Demo.env
    ([("AppLoadBalancer", Demo.load_balancer)] ++
     [("AppServerConfig", Demo.launch_configuration)])%list (PStr "stale")
  = scan_resources Demo.env [("AppServerConfig", Demo.launch_configuration)] PNone.
Proof.
  apply (scan_resources_last Demo.env [("AppLoadBalancer", Demo.load_balancer)]
           "AppServerConfig" Demo.launch_configuration
           (PStr "AWS::AutoScaling::LaunchConfiguration") (PStr "stale") (PStr "stale"));
    reflexivity.
Defined.

(** ** [delete_stack]: exceptions that are not tool failures *)

Section DeletePaths.

Context {W : Type} (env : Env W).


(** X21: on every path [delete_stack] makes at most one call, the removal
    of the stack the identifier names; it never fetches the stack. *)
Theorem delete_stack_footprint (stack_id : string) (st : state W) :
  calls (snd (delete_stack env stack_id st)) = calls st \/
  exists name version,
    parse_stack_id stack_id = Ret (name, version) /\
    calls (snd (delete_stack env stack_id st))
    = (calls st ++ [Senza_remove (PStr name) (PStr version)])%list.
Proof.
  unfold delete_stack. run.
  destruct (parse_stack_id stack_id) as [[name version]|e]; cbn; [|left; reflexivity].
  right. exists name, version. split; [reflexivity|].
  destruct (senza_remove env (PStr name) (PStr version) (world st)) as [[[]|e] w1]; cbn;
    [reflexivity|].
  destruct e; reflexivity.
Qed.

End DeletePaths.


(** ** [all_stacks]: ties and stacks without a creation time *)

Section ListingPaths.

Lemma timed_before (x y : pyvalue * pyvalue) (tx ty : Z) :
  fst x = PInt tx -> creation_time (snd x) = Some tx ->
  fst y = PInt ty -> creation_time (snd y) = Some ty ->
  entry_before x y -> (ty <? tx) = false.
Proof.
  intros _ Hx _ Hy (ta & tb & Ha & Hb & Hle).
  rewrite Hx in Ha. rewrite Hy in Hb. inversion Ha. inversion Hb. subst.
  apply Z.ltb_ge. exact Hle.
Qed.

Lemma sort_keys_in_order (entries : list (pyvalue * pyvalue)) :
  Forall timed entries -> StronglySorted entry_before entries ->
  sort_keys entries = Ret entries.
Proof.
  intros Hall Hsorted. induction Hsorted as [|x entries Hs IH Hx]; [reflexivity|].
  inversion Hall as [|? ? Htx Hall']. subst. simpl. rewrite (IH Hall'). simpl.
  destruct entries as [|y entries']; [reflexivity|]. simpl.
  inversion Hall' as [|? ? Hty _]. subst. inversion Hx as [|? ? Hxy _]. subst.
  destruct Htx as (tx & Hkx & Hcx). destruct Hty as (ty & Hky & Hcy).
  rewrite Hky, Hkx. simpl.
  rewrite (timed_before x y tx ty Hkx Hcx Hky Hcy Hxy). reflexivity.
Qed.

Lemma sorted_stacks_entries (entries : list (pyvalue * pyvalue)) :
  StronglySorted created_before (map snd entries) ->
  StronglySorted entry_before entries.
Proof.
  induction entries as [|x entries IH]; simpl; intros H; [constructor|].
  inversion H as [|? ? Hs Hx]. subst. constructor; [apply IH, Hs|].
  rewrite Forall_map in Hx. exact Hx.
Qed.

Lemma decorate_untimed (stacks : list pyvalue) :
  Forall is_dict stacks -> Exists untimed_dict stacks ->
  decorate (fun stack => getitem stack "creation_time") stacks
  = Raise (KeyError "creation_time").
Proof.
  intros Hdict Hex. induction Hex as [x l (d & Hx & Hd) | x l Hex IH]; simpl.
  - subst x. simpl. rewrite Hd. reflexivity.
  - inversion Hdict as [|? ? (d & Hx) Hdict']. subst. simpl.
    destruct (assoc "creation_time" d); simpl; [|reflexivity].
    rewrite (IH Hdict'). reflexivity.
Qed.

Context {W : Type} (env : Env W).

(** X22: a listing that is already in creation order is returned as it is:
    stacks created at the same time are not swapped. *)
Theorem all_stacks_in_order (stacks : list pyvalue) (w1 : W) (st : state W) :
  stack_list env (world st) = (Ret stacks, w1) ->
  Forall has_creation_time stacks ->
  StronglySorted created_before stacks ->
  all_stacks env st
  = (Ret {| resp_body := Body (PList stacks);
            resp_status := 200;
            resp_headers := _make_headers env |},
     {| world := w1; calls := (calls st ++ [Stack_list])%list; logs := logs st |}).
Proof.
  intros Hlist Hall Hsorted.
  destruct (decorate_creation_time stacks Hall) as (entries & Hd & Hm & Hk).
  unfold all_stacks, list_sort. run. rewrite Hlist. cbn. rewrite Hd. cbn.
  rewrite <- Hm in Hsorted.
  rewrite (sort_keys_in_order entries Hk (sorted_stacks_entries _ Hsorted)). cbn.
  rewrite Hm. reflexivity.
Qed.

(** X23: when the stacks of the listing are dicts and one of them has no
    [creation_time], [all_stacks] raises [KeyError] for that key after the
    listing call; no response is built. *)
Theorem all_stacks_missing_creation_time (stacks : list pyvalue) (w1 : W) (st : state W) :
  stack_list env (world st) = (Ret stacks, w1) ->
  Forall is_dict stacks ->
  Exists untimed_dict stacks ->
  all_stacks env st
  = (Raise (KeyError "creation_time"),
     {| world := w1; calls := (calls st ++ [Stack_list])%list; logs := logs st |}).
Proof.
  intros Hlist Hdict Hex.
  unfold all_stacks, list_sort. run. rewrite Hlist. cbn.
  rewrite (decorate_untimed stacks Hdict Hex). reflexivity.
Qed.

End ListingPaths.

Lemma all_stacks_in_order_witness :
  all_stacks Scenario.in_order Demo.start
  = (Ret {| resp_body := Body (PList Scenario.listing_in_order);
            resp_status := 200;
            resp_headers := [("X-Lizzy-Version", "1.0")] |},
     {| world := 1%nat; calls := ([] ++ [Stack_list])%list; logs := [] |}).
Proof.
  apply (all_stacks_in_order Scenario.in_order Scenario.listing_in_order 1%nat Demo.start).
  - reflexivity.
  - repeat constructor; eexists; reflexivity.
  - repeat constructor;
      (eexists; eexists; split; [reflexivity | split; [reflexivity | cbn; lia]]).
Defined.

Lemma all_stacks_missing_creation_time_witness :
  all_stacks Scenario.untimed Demo.start
  = (Raise (KeyError "creation_time"),
     {| world := 1%nat; calls := ([] ++ [Stack_list])%list; logs := [] |}).
Proof.
  apply (all_stacks_missing_creation_time Scenario.untimed Scenario.listing_untimed
           1%nat Demo.start).
  - reflexivity.
  - repeat constructor; eexists; reflexivity.
  - right. left. eexists. split; reflexivity.
Defined.

(** ** [_make_stack_api_compliant] *)

Section CompliancePaths.

Context {datetime : Type}.
Variable timestamp_to_uct : pyvalue -> outcome datetime.
Variable strftime : string -> datetime -> string.

Lemma assoc_setitem_same (k : string) (v : pyvalue) (d : pydict) :
  assoc k (setitem k v d) = Some v.
Proof.
  induction d as [|[k' v'] d IH]; simpl.
  - rewrite String.eqb_refl. reflexivity.
  - destruct (k' =? k)%string eqn:E; simpl; rewrite E; [reflexivity | exact IH].
Qed.

Lemma assoc_setitem_other (k k0 : string) (v : pyvalue) (d : pydict) :
  k0 <> k -> assoc k0 (setitem k v d) = assoc k0 d.
Proof.
  intros Hne. induction d as [|[k' v'] d IH]; simpl.
  - destruct (k =? k0)%string eqn:E; [|reflexivity].
    apply String.eqb_eq in E. congruence.
  - destruct (k' =? k)%string eqn:E; simpl.
    + apply String.eqb_eq in E. subst k'.
      destruct (k =? k0)%string eqn:E'; [|reflexivity].
      apply String.eqb_eq in E'. congruence.
    + rewrite IH. reflexivity.
Qed.

Lemma keys_setitem (k : string) (v x : pyvalue) (d : pydict) :
  assoc k d = Some x -> map fst (setitem k v d) = map fst d.
Proof.
  induction d as [|[k' v'] d IH]; simpl; [discriminate|].
  destruct (k' =? k)%string; simpl; [reflexivity|].
  intros H. rewrite (IH H). reflexivity.
Qed.

(** X24: [_make_stack_api_compliant] raises [KeyError] when the stack has no
    [creation_time]; otherwise the result has the same keys in the same
    order, the creation time replaced by its formatted text and every other
    field as it was. *)
Theorem make_stack_api_compliant_outcome (stack : pydict) :
  (assoc "creation_time" stack = None ->
   _make_stack_api_compliant timestamp_to_uct strftime stack
   = Raise (KeyError "creation_time")) /\
  (forall timestamp creation_date,
      assoc "creation_time" stack = Some timestamp ->
      timestamp_to_uct timestamp = Ret creation_date ->
      exists compliant,
        _make_stack_api_compliant timestamp_to_uct strftime stack = Ret compliant /\
        assoc "creation_time" compliant
        = Some (PStr (strftime "%FT%T%z" creation_date)) /\
        (forall k, k <> "creation_time" -> assoc k compliant = assoc k stack) /\
        map fst compliant = map fst stack).
Proof.
  unfold _make_stack_api_compliant. split.
  - intros H. simpl. rewrite H. reflexivity.
  - intros timestamp creation_date Hts Hdate. simpl. rewrite Hts. simpl.
    rewrite Hdate. simpl. eexists. split; [reflexivity|].
    split; [apply assoc_setitem_same|].
    split; [intros k Hk; apply assoc_setitem_other, Hk|].
    exact (keys_setitem _ _ _ _ Hts).
Qed.

End CompliancePaths.

Lemma make_stack_api_compliant_outcome_witness :
  exists compliant,
    _make_stack_api_compliant Scenario.seconds Scenario.show
      [("stack_name", PStr "app"); ("creation_time", PInt 0); ("status", PStr "CREATE_COMPLETE")]
    = Ret compliant /\
    assoc "creation_time" compliant = Some (PStr "1970-01-01T00:00:00+0000") /\
    (forall k, k <> "creation_time" ->
               assoc k compliant
               = assoc k [("stack_name", PStr "app"); ("creation_time", PInt 0);
                          ("status", PStr "CREATE_COMPLETE")]) /\
    map fst compliant = ["stack_name"; "creation_time"; "status"].
Proof.
  apply (proj2 (make_stack_api_compliant_outcome Scenario.seconds Scenario.show
                  [("stack_name", PStr "app"); ("creation_time", PInt 0);
                   ("status", PStr "CREATE_COMPLETE")]) (PInt 0) 0);
    reflexivity.
Defined.
